(** * rpi/amherst_2005.py: L298N turnout switches driven from push buttons

    A shallow embedding of the script: the two enumerations, the pydantic
    settings class with its two [before] validators, the [L298NSwitch]
    class (constructor, pin initialisation, the button callback
    [__toggle]) and the registration loop of [__main__].

    Python integers are unbounded, so they are [Z].  A YAML mapping is a
    [gmap string yaml].  Exceptions and the mutable world (GPIO chip, the
    heap of switch objects, the chronological trace of calls) are threaded
    by a state-and-exception monad: a raised exception keeps every effect
    performed before it, as in Python. *)

From Stdlib Require Import ZArith String List Bool Lia.
From stdpp Require Import base option list gmap strings pretty fin_maps.

Local Open Scope string_scope.
Local Open Scope Z_scope.

(** ** Enumerations *)

(** [class SwitchPosition(enum.IntEnum)]: TURN = 0, STRAIGHT = 1. *)
Inductive SwitchPosition := TURN | STRAIGHT.

(** [class EventEdge(enum.IntEnum)], in declaration order. The members
    wrap [GPIO.FALLING], [GPIO.RISING] and [GPIO.BOTH]; the same type
    stands for those library constants. *)
Inductive EventEdge := FALLING | RISING | BOTH.

#[global] Instance SwitchPosition_eq_dec : EqDecision SwitchPosition.
Proof. solve_decision. Defined.

#[global] Instance EventEdge_eq_dec : EqDecision EventEdge.
Proof. solve_decision. Defined.

Definition SwitchPosition_value (p : SwitchPosition) : Z :=
  match p with TURN => 0 | STRAIGHT => 1 end.

Definition SwitchPosition_name (p : SwitchPosition) : string :=
  match p with TURN => "TURN" | STRAIGHT => "STRAIGHT" end.

Definition EventEdge_name (e : EventEdge) : string :=
  match e with FALLING => "FALLING" | RISING => "RISING" | BOTH => "BOTH" end.

(** Iteration over an enum class yields its members in declaration order. *)
Definition SwitchPosition_members : list SwitchPosition := [TURN; STRAIGHT].
Definition EventEdge_members : list EventEdge := [FALLING; RISING; BOTH].

(** The other position. *)
Definition flip (p : SwitchPosition) : SwitchPosition :=
  match p with TURN => STRAIGHT | STRAIGHT => TURN end.

(** A scalar as [yaml.safe_load] hands it over. *)
Inductive yaml := YStr (s : string) | YInt (z : Z).

#[global] Instance yaml_eq_dec : EqDecision yaml.
Proof. solve_decision. Defined.

(** [Enum[key]]: lookup of a member by name; a key that is no member name
    (in particular any non-string key) is a [KeyError], here [None]. *)
Definition enum_getitem {A} (name_of : A → string) (members : list A)
    (key : yaml) : option A :=
  match key with
  | YStr s => List.find (λ m, String.eqb (name_of m) s) members
  | YInt _ => None
  end.

Definition SwitchPosition_getitem : yaml → option SwitchPosition :=
  enum_getitem SwitchPosition_name SwitchPosition_members.

Definition EventEdge_getitem : yaml → option EventEdge :=
  enum_getitem EventEdge_name EventEdge_members.

(** ** Exceptions *)

(** One entry of a pydantic [ValidationError]. *)
Inductive FieldError :=
| FieldRequired
| ValueErrorIn (msg : string)
| WrongType.

Inductive exn :=
| PinConfigurationError
| PinIOError
| InterruptAlreadyArmedError
| TypeError
| ValueError (msg : string)
| OverflowError
| OSError
| ValidationError (errors : list (string * FieldError))
| NoSuchObject.

Inductive result (A : Type) :=
| Ok (a : A)
| Raise (e : exn).
Arguments Ok {A} a.
Arguments Raise {A} e.

(** ** Settings *)

(** [class L298NSwitchSettings(pydantic.BaseModel)], fields in declaration
    order. *)
Record L298NSwitchSettings := {
  initial_state : SwitchPosition;
  debounce_ms : Z;
  event_edge : EventEdge;
  strobe_ms : Z;
  name : string;
  pin_enable : Z;
  pin_turn : Z;
  pin_straight : Z;
  pin_button : Z
}.

Section Validation.

(** Python's [repr], which formats the key of a [KeyError] and the
    elements of a list inside an f-string. *)
Variable py_repr : yaml → string.

(** pydantic's conversion of a raw value to a field annotated [int],
    respectively [str]; [None] when pydantic rejects the value. *)
Variable as_int : yaml → option Z.
Variable as_str : yaml → option string.

(** [str] of a list of strings: the reprs, comma separated, in brackets. *)
Definition py_list_str (xs : list string) : string :=
  "[" ++ String.concat ", " (List.map (λ x, py_repr (YStr x)) xs) ++ "]".

(** [validate_switch_position]: the [before] validator of
    [initial_state]. *)
Definition validate_switch_position (value : yaml)
    : string + SwitchPosition :=
  match SwitchPosition_getitem value with
  | Some p => inr p
  | None =>
      inl ("Error validating switch position " ++ py_repr value
           ++ ". Valid switch positions are: "
           ++ py_list_str (List.map SwitchPosition_name SwitchPosition_members))
  end.

(** [validate_event_edge]: the [before] validator of [event_edge]. *)
Definition validate_event_edge (value : yaml) : string + EventEdge :=
  match EventEdge_getitem value with
  | Some e => inr e
  | None =>
      inl ("Error validating event edge " ++ py_repr value
           ++ ". Valid event edges are: "
           ++ py_list_str (List.map EventEdge_name EventEdge_members))
  end.

(** How [pydantic.BaseModel] treats one declared field. A field that has
    a default and a [before] validator: absent from the input it takes
    the default, unvalidated; present, the validator decides, and its
    [ValueError] becomes that field's error. *)
Definition field_validated {A} (default : A)
    (validator : yaml → string + A) (raw : option yaml)
    : FieldError + A :=
  match raw with
  | None => inr default
  | Some v =>
      match validator v with
      | inr a => inr a
      | inl msg => inl (ValueErrorIn msg)
      end
  end.

(** A field that has a default and no validator of its own. *)
Definition field_default {A} (default : A) (conv : yaml → option A)
    (raw : option yaml) : FieldError + A :=
  match raw with
  | None => inr default
  | Some v => match conv v with Some a => inr a | None => inl WrongType end
  end.

(** A field without default: absent from the input it is reported as
    required. *)
Definition field_required {A} (conv : yaml → option A)
    (raw : option yaml) : FieldError + A :=
  match raw with
  | None => inl FieldRequired
  | Some v => match conv v with Some a => inr a | None => inl WrongType end
  end.

Definition field_errors {A} (field : string) (r : FieldError + A)
    : list (string * FieldError) :=
  match r with inl e => [(field, e)] | inr _ => [] end.

(** The entries of the [ValidationError]: the failing fields, in
    declaration order. *)
Definition validation_errors (switch_cfg : gmap string yaml)
    : list (string * FieldError) :=
  field_errors "initial_state"
    (field_validated TURN validate_switch_position (switch_cfg !! "initial_state"))
  ++ field_errors "debounce_ms" (field_default 200 as_int (switch_cfg !! "debounce_ms"))
  ++ field_errors "event_edge"
       (field_validated RISING validate_event_edge (switch_cfg !! "event_edge"))
  ++ field_errors "strobe_ms" (field_default 500 as_int (switch_cfg !! "strobe_ms"))
  ++ field_errors "name" (field_required as_str (switch_cfg !! "name"))
  ++ field_errors "pin_enable" (field_required as_int (switch_cfg !! "pin_enable"))
  ++ field_errors "pin_turn" (field_required as_int (switch_cfg !! "pin_turn"))
  ++ field_errors "pin_straight" (field_required as_int (switch_cfg !! "pin_straight"))
  ++ field_errors "pin_button" (field_required as_int (switch_cfg !! "pin_button")).

(** [L298NSwitchSettings.model_validate]: every field is validated; the
    settings are built when all succeed, else one [ValidationError]
    carries all the failures. *)
Definition model_validate (switch_cfg : gmap string yaml)
    : result L298NSwitchSettings :=
  match
    field_validated TURN validate_switch_position (switch_cfg !! "initial_state"),
    field_default 200 as_int (switch_cfg !! "debounce_ms"),
    field_validated RISING validate_event_edge (switch_cfg !! "event_edge"),
    field_default 500 as_int (switch_cfg !! "strobe_ms"),
    field_required as_str (switch_cfg !! "name"),
    field_required as_int (switch_cfg !! "pin_enable"),
    field_required as_int (switch_cfg !! "pin_turn"),
    field_required as_int (switch_cfg !! "pin_straight"),
    field_required as_int (switch_cfg !! "pin_button")
  with
  | inr i, inr d, inr e, inr s, inr n, inr pe, inr pt, inr ps, inr pb =>
      Ok {| initial_state := i; debounce_ms := d; event_edge := e;
            strobe_ms := s; name := n; pin_enable := pe; pin_turn := pt;
            pin_straight := ps; pin_button := pb |}
  | _, _, _, _, _, _, _, _, _ =>
      Raise (ValidationError (validation_errors switch_cfg))
  end.

End Validation.

(** ** The GPIO chip *)

Inductive PinMode := IN_PUD_UP | OUT.

#[global] Instance PinMode_eq_dec : EqDecision PinMode.
Proof. solve_decision. Defined.

(** An armed edge detection: the edge selector, the registered callback
    (the switch object whose bound [__toggle] was passed) and the
    bounce time. *)
Record Detect := {
  d_edge : EventEdge;
  d_callback : nat;
  d_bouncetime : Z
}.

(** An electrical transition on a pin. *)
Inductive Transition := Rise | Fall.

(** Whether an armed edge selector reacts to a transition. *)
Definition edge_matches (e : EventEdge) (t : Transition) : bool :=
  match e, t with
  | RISING, Rise => true
  | FALLING, Fall => true
  | BOTH, _ => true
  | _, _ => false
  end.

Module GPIO.

Record t := {
  modes : gmap Z PinMode;
  levels : gmap Z bool;
  detects : gmap Z Detect
}.

Definition fresh : t := {| modes := ∅; levels := ∅; detects := ∅ |}.

Section Chip.

(** The pin identifiers the platform accepts. *)
Variable valid_pin : Z → bool.

(** Modelled from the spec: [GPIO.setup] of the RPi.GPIO library, which is
    not part of the repository, after section 4.1 ([configure_output],
    [configure_input_pulled_up]): idempotent, fails with
    [PinConfigurationError] on a pin outside the platform's range. *)
Definition setup (pin : Z) (m : PinMode) (g : t) : result t :=
  if valid_pin pin
  then Ok {| modes := <[pin := m]> (modes g); levels := levels g;
             detects := detects g |}
  else Raise PinConfigurationError.

(** Modelled from the spec: [GPIO.output] after section 4.1 ([write]): sets
    the logic level, fails with [PinIOError] when the pin was not
    configured as an output. *)
Definition output (pin : Z) (value : bool) (g : t) : result t :=
  match modes g !! pin with
  | Some OUT =>
      Ok {| modes := modes g; levels := <[pin := value]> (levels g);
            detects := detects g |}
  | _ => Raise PinIOError
  end.

(** Modelled from the spec: [GPIO.add_event_detect] after section 4.1
    ([arm_interrupt]): one handler per pin, arming a second one fails
    with [InterruptAlreadyArmedError]. *)
Definition add_event_detect (pin : Z) (edge : EventEdge) (callback : nat)
    (bouncetime : Z) (g : t) : result t :=
  match detects g !! pin with
  | Some _ => Raise InterruptAlreadyArmedError
  | None =>
      Ok {| modes := modes g; levels := levels g;
            detects := <[pin := {| d_edge := edge; d_callback := callback;
                                   d_bouncetime := bouncetime |}]> (detects g) |}
  end.

(** Modelled from the spec: [GPIO.remove_event_detect] after section 4.1
    ([disarm_interrupt]): idempotent removal. *)
Definition remove_event_detect (pin : Z) (g : t) : t :=
  {| modes := modes g; levels := levels g;
     detects := delete pin (detects g) |}.

End Chip.

End GPIO.

(** ** The world the script runs in *)

(** A switch object: [self.config] and the private [self.__state], which
    is [None] until the constructor assigns it. An [IntEnum] member is an
    [int]; the state is kept as that integer. *)
Record L298NSwitch := {
  config : L298NSwitchSettings;
  state : option Z
}.

(** What the script does to the outside, in the order it does it. *)
Inductive Event :=
| EvSetup (pin : Z) (m : PinMode)
| EvOutput (pin : Z) (value : bool)
| EvAddEventDetect (pin : Z) (edge : EventEdge) (bouncetime : Z)
| EvRemoveEventDetect (pin : Z)
| EvSleep (ms : Z)
| EvLogDebug (switch_name : string) (st : Z).

(** [gpio]: the chip. [heap]: the switch objects, an object being known by
    its index. [trace]: the calls that took effect, oldest first.
    [incoming]: for each sleep still to come, the transitions the
    environment produces on the pins while the script sleeps. [fired]:
    the callbacks those transitions triggered, with the channel. *)
Record World := {
  gpio : GPIO.t;
  heap : list L298NSwitch;
  trace : list Event;
  incoming : list (list (Z * Transition));
  fired : list (nat * Z)
}.

Definition with_gpio (g : GPIO.t) (w : World) : World :=
  {| gpio := g; heap := heap w; trace := trace w; incoming := incoming w;
     fired := fired w |}.

Definition with_heap (h : list L298NSwitch) (w : World) : World :=
  {| gpio := gpio w; heap := h; trace := trace w; incoming := incoming w;
     fired := fired w |}.

Definition with_trace (tr : list Event) (w : World) : World :=
  {| gpio := gpio w; heap := heap w; trace := tr; incoming := incoming w;
     fired := fired w |}.

Definition with_incoming (i : list (list (Z * Transition))) (w : World) : World :=
  {| gpio := gpio w; heap := heap w; trace := trace w; incoming := i;
     fired := fired w |}.

Definition with_fired (f : list (nat * Z)) (w : World) : World :=
  {| gpio := gpio w; heap := heap w; trace := trace w; incoming := incoming w;
     fired := f |}.

Definition boot (script : list (list (Z * Transition))) : World :=
  {| gpio := GPIO.fresh; heap := []; trace := []; incoming := script;
     fired := [] |}.

(** State and exceptions. *)
Definition M (A : Type) : Type := World → result A * World.

#[global] Instance M_ret : MRet M := λ A a w, (Ok a, w).

#[global] Instance M_bind : MBind M := λ A B f m w,
  match m w with
  | (Ok a, w') => f a w'
  | (Raise e, w') => (Raise e, w')
  end.

Definition raise {A} (e : exn) : M A := λ w, (Raise e, w).

Definition emit (ev : Event) : M unit :=
  λ w, (Ok (), with_trace (trace w ++ [ev]) w).

(** A chip call: on success the chip is replaced and the call recorded. *)
Definition chip (op : GPIO.t → result GPIO.t) (ev : Event) : M unit :=
  λ w, match op (gpio w) with
       | Ok g => (Ok (), with_trace (trace w ++ [ev]) (with_gpio g w))
       | Raise e => (Raise e, w)
       end.

(** One transition reaching the chip: it triggers the callback armed on
    its pin when the armed edge selects it, and is lost otherwise. *)
Definition fire (detects : gmap Z Detect) (f : list (nat * Z))
    (ev : Z * Transition) : list (nat * Z) :=
  match detects !! ev.1 with
  | Some d => if edge_matches (d_edge d) ev.2 then f ++ [(d_callback d, ev.1)] else f
  | None => f
  end.

(** What the interpreter and the platform hold of a length of time, in
    milliseconds. [float_max_ms]: the largest magnitude whose quotient by
    1000 is still a float. [time_t_max_ms]: the largest magnitude
    [time.sleep] converts to the C time type. [os_sleep_max_ms]: the
    longest sleep the system call accepts. *)
Record Clock := {
  float_max_ms : Z;
  time_t_max_ms : Z;
  os_sleep_max_ms : Z
}.

(** The largest magnitude that reaches the sign check of [time.sleep]. *)
Definition representable_ms (clock : Clock) : Z :=
  Z.min (float_max_ms clock) (time_t_max_ms clock).

(** The longest sleep that returns. *)
Definition sleep_max_ms (clock : Clock) : Z :=
  Z.min (representable_ms clock) (os_sleep_max_ms clock).

(** [ms / 1000], the true division of an [int] by an [int]: a float, or
    [OverflowError] when the quotient is beyond the float range. The
    float is kept as the number of milliseconds it stands for. *)
Definition truediv_1000 (clock : Clock) (ms : Z) : M Z :=
  if float_max_ms clock <? Z.abs ms then raise OverflowError else mret ms.

(** [time.sleep(secs)], the length given in milliseconds. The length is
    first converted to the C time type, an [OverflowError] when it is
    out of range, whatever its sign; a negative length is then a
    [ValueError]; the system call then fails with [OSError] on a length
    it does not accept. While the script sleeps the environment's
    transitions reach the chip. *)
Definition time_sleep (clock : Clock) (ms : Z) : M unit :=
  λ w, if time_t_max_ms clock <? Z.abs ms
       then (Raise OverflowError, w)
       else if ms <? 0
       then (Raise (ValueError "sleep length must be non-negative"), w)
       else if os_sleep_max_ms clock <? ms
       then (Raise OSError, w)
       else
         let during := hd [] (incoming w) in
         (Ok (),
          with_trace (trace w ++ [EvSleep ms])
            (with_fired (foldl (fire (GPIO.detects (gpio w))) (fired w) during)
               (with_incoming (tl (incoming w)) w))).

(** Truth value of an integer. *)
Definition truthy (z : Z) : bool := negb (z =? 0).

(** ** class L298NSwitch *)

Section Switch.

Variable valid_pin : Z → bool.
Variable clock : Clock.

(** The object a reference denotes. References come from [alloc], so
    [NoSuchObject] is never raised by the script. *)
Definition get_self (self : nat) : M L298NSwitch :=
  λ w, match heap w !! self with
       | Some o => (Ok o, w)
       | None => (Raise NoSuchObject, w)
       end.

(** The [state] property: the getter returns [self.__state]. *)
Definition get_state (self : nat) : M (option Z) :=
  o ← get_self self; mret (state o).

(** The [state] setter: stores the value, then logs it at debug level
    under the configured name. *)
Definition set_state (self : nat) (v : Z) : M unit :=
  o ← get_self self;
  (λ w, (Ok (), with_heap (<[self := {| config := config o; state := Some v |}]> (heap w)) w)) ;;
  emit (EvLogDebug (name (config o)) v).

(** [__set_direction_pins]: turn pin = [not self.state], straight pin =
    [self.state]. The state is an integer whenever this method runs,
    the constructor having assigned it; [None] is given the truth
    value false. *)
Definition set_direction_pins (self : nat) : M unit :=
  o ← get_self self;
  s ← get_state self;
  let level := from_option truthy false s in
  chip (GPIO.output (pin_turn (config o)) (negb level))
       (EvOutput (pin_turn (config o)) (negb level)) ;;
  chip (GPIO.output (pin_straight (config o)) level)
       (EvOutput (pin_straight (config o)) level).

Definition enable_switch (self : nat) : M unit :=
  o ← get_self self;
  chip (GPIO.output (pin_enable (config o)) true)
       (EvOutput (pin_enable (config o)) true).

Definition disable_switch (self : nat) : M unit :=
  o ← get_self self;
  chip (GPIO.output (pin_enable (config o)) false)
       (EvOutput (pin_enable (config o)) false).

(** [__strobe]: [time.sleep(self.config.strobe_ms / 1000)]. *)
Definition strobe (self : nat) : M unit :=
  o ← get_self self;
  secs ← truediv_1000 clock (strobe_ms (config o));
  time_sleep clock secs.

Definition init_pins (self : nat) : M unit :=
  o ← get_self self;
  chip (GPIO.setup valid_pin (pin_button (config o)) IN_PUD_UP)
       (EvSetup (pin_button (config o)) IN_PUD_UP) ;;
  chip (GPIO.setup valid_pin (pin_enable (config o)) OUT)
       (EvSetup (pin_enable (config o)) OUT) ;;
  chip (GPIO.setup valid_pin (pin_straight (config o)) OUT)
       (EvSetup (pin_straight (config o)) OUT) ;;
  chip (GPIO.setup valid_pin (pin_turn (config o)) OUT)
       (EvSetup (pin_turn (config o)) OUT) ;;
  disable_switch self ;;
  set_direction_pins self.

(** [__enable_button_interrupt]: the edge passed is the constant
    [GPIO.RISING]; the bounce time is the configured one. *)
Definition enable_button_interrupt (self : nat) : M unit :=
  o ← get_self self;
  chip (GPIO.add_event_detect (pin_button (config o)) RISING self
          (debounce_ms (config o)))
       (EvAddEventDetect (pin_button (config o)) RISING (debounce_ms (config o))).

Definition disable_button_interrupt (self : nat) : M unit :=
  o ← get_self self;
  chip (λ g, Ok (GPIO.remove_event_detect (pin_button (config o)) g))
       (EvRemoveEventDetect (pin_button (config o))).

(** [__toggle], the button callback. [self.state ^= 1] reads the
    property, xors and goes through the setter; [None ^ 1] is a
    [TypeError]. *)
Definition toggle (self : nat) (channel : Z) : M unit :=
  disable_button_interrupt self ;;
  s ← get_state self;
  v ← from_option (λ z, mret (Z.lxor z 1)) (raise TypeError) s;
  set_state self v ;;
  enable_switch self ;;
  set_direction_pins self ;;
  strobe self ;;
  disable_switch self ;;
  enable_button_interrupt self.

(** Object creation with the first two statements of [__init__]:
    [self.__state = None; self.config = cfg]. *)
Definition alloc (cfg : L298NSwitchSettings) : M nat :=
  λ w, (Ok (length (heap w)),
        with_heap (heap w ++ [{| config := cfg; state := None |}]) w).

(** [L298NSwitch(cfg=cfg)]. *)
Definition L298NSwitch_init (cfg : L298NSwitchSettings) : M nat :=
  self ← alloc cfg;
  set_state self (SwitchPosition_value (initial_state cfg)) ;;
  init_pins self ;;
  enable_button_interrupt self ;;
  mret self.

(** A transition on a pin while the script idles, the bounce time of
    the pin having elapsed: when a detection is armed on the pin and
    selects the transition, its callback runs; otherwise the transition
    is dropped ([None]). The outcome of the callback is returned for
    inspection. *)
Definition deliver (ev : Z * Transition) (w : World)
    : option (result unit) * World :=
  match GPIO.detects (gpio w) !! ev.1 with
  | Some d =>
      if edge_matches (d_edge d) ev.2
      then let '(r, w') := toggle (d_callback d) ev.1 w in (Some r, w')
      else (None, w)
  | None => (None, w)
  end.

(** A sequence of transitions, each delivered once the previous
    callback has returned; the outcomes are kept in order. *)
Fixpoint deliver_all (evs : list (Z * Transition)) (w : World)
    : list (option (result unit)) * World :=
  match evs with
  | [] => ([], w)
  | ev :: rest =>
      let '(r, w1) := deliver ev w in
      let '(rs, w2) := deliver_all rest w1 in
      (r :: rs, w2)
  end.

Section Main.

Variable py_repr : yaml → string.
Variable as_int : yaml → option Z.
Variable as_str : yaml → option string.

Definition lift {A} (r : result A) : M A := λ w, (r, w).

(** One round of the loop of [__main__]: validate the record,
    construct the switch. *)
Definition register (switch_cfg : gmap string yaml) : M nat :=
  cfg ← lift (model_validate py_repr as_int as_str switch_cfg);
  L298NSwitch_init cfg.

(** [for switch_cfg in cfg_data: ...; switches.append(switch)]. *)
Fixpoint register_all (cfg_data : list (gmap string yaml))
    (switches : list nat) : M (list nat) :=
  match cfg_data with
  | [] => mret switches
  | switch_cfg :: rest =>
      switch ← register switch_cfg;
      register_all rest (switches ++ [switch])
  end.

End Main.

End Switch.

(** ** Worlds met in the proofs *)

(** The detection [__enable_button_interrupt] arms for object [self]. *)
Definition armed (self : nat) (cfg : L298NSwitchSettings) : Detect :=
  {| d_edge := RISING; d_callback := self; d_bouncetime := debounce_ms cfg |}.

(** [Idle(p)]: the object holds position [p], its three output pins are
    outputs, the driver is disabled and the button interrupt is armed
    with the object's own callback. *)
Definition idle (self : nat) (cfg : L298NSwitchSettings) (p : Z) (w : World) : Prop :=
  heap w !! self = Some {| config := cfg; state := Some p |}
  ∧ GPIO.modes (gpio w) !! pin_enable cfg = Some OUT
  ∧ GPIO.modes (gpio w) !! pin_turn cfg = Some OUT
  ∧ GPIO.modes (gpio w) !! pin_straight cfg = Some OUT
  ∧ GPIO.levels (gpio w) !! pin_enable cfg = Some false
  ∧ GPIO.detects (gpio w) !! pin_button cfg = Some (armed self cfg).

(** What a toggle that reaches position [v] does, in order. *)
Definition toggle_events (cfg : L298NSwitchSettings) (v : Z) : list Event :=
  [ EvRemoveEventDetect (pin_button cfg);
    EvLogDebug (name cfg) v;
    EvOutput (pin_enable cfg) true;
    EvOutput (pin_turn cfg) (negb (truthy v));
    EvOutput (pin_straight cfg) (truthy v);
    EvSleep (strobe_ms cfg);
    EvOutput (pin_enable cfg) false;
    EvAddEventDetect (pin_button cfg) RISING (debounce_ms cfg) ].

(** The world after a toggle from position [p]. *)
Definition toggled (self : nat) (cfg : L298NSwitchSettings) (p : Z) (w : World) : World :=
  let v := Z.lxor p 1 in
  {| gpio :=
       {| GPIO.modes := GPIO.modes (gpio w);
          GPIO.levels :=
            <[pin_enable cfg := false]>
              (<[pin_straight cfg := truthy v]>
                 (<[pin_turn cfg := negb (truthy v)]>
                    (<[pin_enable cfg := true]> (GPIO.levels (gpio w)))));
          GPIO.detects :=
            <[pin_button cfg := armed self cfg]>
              (delete (pin_button cfg) (GPIO.detects (gpio w))) |};
     heap := <[self := {| config := cfg; state := Some v |}]> (heap w);
     trace := trace w ++ toggle_events cfg v;
     incoming := tl (incoming w);
     fired := foldl (fire (delete (pin_button cfg) (GPIO.detects (gpio w))))
                (fired w) (hd [] (incoming w)) |}.

(** What the constructor does up to the return of [__init_pins], in
    order. *)
Definition construct_events (cfg : L298NSwitchSettings) : list Event :=
  let v := SwitchPosition_value (initial_state cfg) in
  [ EvLogDebug (name cfg) v;
    EvSetup (pin_button cfg) IN_PUD_UP;
    EvSetup (pin_enable cfg) OUT;
    EvSetup (pin_straight cfg) OUT;
    EvSetup (pin_turn cfg) OUT;
    EvOutput (pin_enable cfg) false;
    EvOutput (pin_turn cfg) (negb (truthy v));
    EvOutput (pin_straight cfg) (truthy v) ].

(** The chip once [__init_pins] has returned. *)
Definition pins_initialised (cfg : L298NSwitchSettings) (g : GPIO.t) : GPIO.t :=
  let v := SwitchPosition_value (initial_state cfg) in
  {| GPIO.modes :=
       <[pin_turn cfg := OUT]>
         (<[pin_straight cfg := OUT]>
            (<[pin_enable cfg := OUT]>
               (<[pin_button cfg := IN_PUD_UP]> (GPIO.modes g))));
     GPIO.levels :=
       <[pin_straight cfg := truthy v]>
         (<[pin_turn cfg := negb (truthy v)]>
            (<[pin_enable cfg := false]> (GPIO.levels g)));
     GPIO.detects := GPIO.detects g |}.

(** The world when the constructor raises at [add_event_detect]. *)
Definition half_constructed (cfg : L298NSwitchSettings) (w : World) : World :=
  {| gpio := pins_initialised cfg (gpio w);
     heap := heap w ++ [{| config := cfg;
                           state := Some (SwitchPosition_value (initial_state cfg)) |}];
     trace := trace w ++ construct_events cfg;
     incoming := incoming w;
     fired := fired w |}.

(** The world when the constructor returns. *)
Definition constructed (cfg : L298NSwitchSettings) (w : World) : World :=
  {| gpio :=
       {| GPIO.modes := GPIO.modes (pins_initialised cfg (gpio w));
          GPIO.levels := GPIO.levels (pins_initialised cfg (gpio w));
          GPIO.detects :=
            <[pin_button cfg := armed (length (heap w)) cfg]> (GPIO.detects (gpio w)) |};
     heap := heap (half_constructed cfg w);
     trace := trace w ++ construct_events cfg
                ++ [EvAddEventDetect (pin_button cfg) RISING (debounce_ms cfg)];
     incoming := incoming w;
     fired := fired w |}.

(** The platform accepts the four pins of the config. *)
Definition valid_pins (valid_pin : Z → bool) (cfg : L298NSwitchSettings) : Prop :=
  valid_pin (pin_enable cfg) = true ∧ valid_pin (pin_turn cfg) = true
  ∧ valid_pin (pin_straight cfg) = true ∧ valid_pin (pin_button cfg) = true.

(** The four pins of a config are pairwise distinct (section 3). *)
Definition distinct_pins (cfg : L298NSwitchSettings) : Prop :=
  NoDup [pin_enable cfg; pin_turn cfg; pin_straight cfg; pin_button cfg].

(** The order section 4.2 of the specification gives to the toggle that
    reaches position [v]: disarm, direction pins, enable, hold, disable,
    update and log, re-arm. Written after the specification, to be
    compared with [toggle_events]. *)
Definition section_4_2_events (cfg : L298NSwitchSettings) (v : Z) : list Event :=
  [ EvRemoveEventDetect (pin_button cfg);
    EvOutput (pin_turn cfg) (negb (truthy v));
    EvOutput (pin_straight cfg) (truthy v);
    EvOutput (pin_enable cfg) true;
    EvSleep (strobe_ms cfg);
    EvOutput (pin_enable cfg) false;
    EvLogDebug (name cfg) v;
    EvAddEventDetect (pin_button cfg) RISING (debounce_ms cfg) ].

(** ** Concrete inputs *)

(** A platform with IEEE double floats, a 64-bit nanosecond time type
    and a system call that takes sleeps below 2^31 seconds. *)
Definition sample_clock : Clock :=
  {| float_max_ms := 1000 * (2 ^ 1024 - 2 ^ 970) - 1;
     time_t_max_ms := 9223372036854;
     os_sleep_max_ms := 2147483647999 |}.

(** BCM numbering of the 40-pin header. *)
Definition bcm_pin (pin : Z) : bool := (0 <=? pin) && (pin <=? 27).

(** [repr] on strings without quotes or escapes, and on integers. *)
Definition plain_repr (v : yaml) : string :=
  match v with
  | YStr s => "'" ++ s ++ "'"
  | YInt z => pretty z
  end.

Definition int_only (v : yaml) : option Z :=
  match v with YInt z => Some z | YStr _ => None end.

Definition str_only (v : yaml) : option string :=
  match v with YStr s => Some s | YInt _ => None end.

(** The scenario of section 8. *)
Definition sw1 : L298NSwitchSettings :=
  {| initial_state := TURN; debounce_ms := 200; event_edge := RISING;
     strobe_ms := 500; name := "sw1"; pin_enable := 17; pin_turn := 27;
     pin_straight := 22; pin_button := 23 |}.

Definition sw1_record : gmap string yaml :=
  {[ "name" := YStr "sw1"; "initial_state" := YStr "TURN";
     "debounce_ms" := YInt 200; "strobe_ms" := YInt 500;
     "event_edge" := YStr "RISING"; "pin_enable" := YInt 17;
     "pin_turn" := YInt 27; "pin_straight" := YInt 22;
     "pin_button" := YInt 23 ]}.

(** Only the required fields. *)
Definition sw1_minimal : gmap string yaml :=
  {[ "name" := YStr "sw1"; "pin_enable" := YInt 17; "pin_turn" := YInt 27;
     "pin_straight" := YInt 22; "pin_button" := YInt 23 ]}.

(** A second record with the name and the three output pins of [sw1];
    only the button differs. *)
Definition sw1_again : gmap string yaml :=
  {[ "name" := YStr "sw1"; "pin_enable" := YInt 17; "pin_turn" := YInt 27;
     "pin_straight" := YInt 22; "pin_button" := YInt 24 ]}.

(** A switch asking for the falling edge. *)
Definition sw_falling : L298NSwitchSettings :=
  {| initial_state := TURN; debounce_ms := 200; event_edge := FALLING;
     strobe_ms := 500; name := "sw1"; pin_enable := 17; pin_turn := 27;
     pin_straight := 22; pin_button := 23 |}.

(** A second switch whose button sits on the turn pin of [sw1]. *)
Definition sw2_on_turn_pin : L298NSwitchSettings :=
  {| initial_state := TURN; debounce_ms := 200; event_edge := RISING;
     strobe_ms := 500; name := "sw2"; pin_enable := 5; pin_turn := 6;
     pin_straight := 13; pin_button := 27 |}.

(** A record with an unknown position, and one with an unknown edge. *)
Definition bad_position : gmap string yaml :=
  <["initial_state" := YStr "LEFT"]> sw1_record.

Definition bad_edge : gmap string yaml :=
  <["event_edge" := YStr "rising"]> sw1_record.

(** [sw1] constructed on a fresh chip; [during] is what the environment
    does on the pins while later sleeps last. *)
Definition sw1_world (during : list (list (Z * Transition))) : World :=
  (L298NSwitch_init bcm_pin sw1 (boot during)).2.

Definition sw_falling_world : World :=
  (L298NSwitch_init bcm_pin sw_falling (boot [])).2.

(** [sw1], then [sw2_on_turn_pin], constructed on a fresh chip. *)
Definition two_switch_world : World :=
  (L298NSwitch_init bcm_pin sw2_on_turn_pin (sw1_world [])).2.

(** ** Further notions *)

(** At rest on position [P]: idle, with the direction pins reading what
    [__set_direction_pins] writes for [P]. *)
Definition settled (self : nat) (cfg : L298NSwitchSettings)
    (P : SwitchPosition) (w : World) : Prop :=
  idle self cfg (SwitchPosition_value P) w
  ∧ GPIO.levels (gpio w) !! pin_turn cfg
    = Some (negb (truthy (SwitchPosition_value P)))
  ∧ GPIO.levels (gpio w) !! pin_straight cfg
    = Some (truthy (SwitchPosition_value P)).

(** What the callback armed on the button makes of a transition. *)
Definition button_outcome (t : Transition) : option (result unit) :=
  if edge_matches RISING t then Some (Ok ()) else None.

(** The number of transitions that were accepted, whatever became of
    their handler. *)
Definition accepted (outcomes : list (option (result unit))) : nat :=
  length (List.filter (λ o, match o with Some _ => true | None => false end)
            outcomes).

(** The number of rising transitions in a sequence. *)
Definition rises (ts : list Transition) : nat :=
  length (List.filter (edge_matches RISING) ts).

(** The positions [n] successive toggles reach from [P]. *)
Fixpoint toggled_positions (P : SwitchPosition) (n : nat) : list SwitchPosition :=
  match n with
  | O => []
  | S n' => flip P :: toggled_positions (flip P) n'
  end.

(** The transitions [ts], all on the button of [cfg]. *)
Definition on_button (cfg : L298NSwitchSettings) (ts : list Transition)
    : list (Z * Transition) :=
  (λ t, (pin_button cfg, t)) <$> ts.

(** The pins a config names, and the three it drives. *)
Definition all_pins (cfg : L298NSwitchSettings) : list Z :=
  [pin_enable cfg; pin_turn cfg; pin_straight cfg; pin_button cfg].

Definition output_pins (cfg : L298NSwitchSettings) : list Z :=
  [pin_enable cfg; pin_turn cfg; pin_straight cfg].



(** A second switch whose button sits on the straight pin of [sw1], and
    the world with both constructed. *)
Definition sw2_on_straight_pin : L298NSwitchSettings :=
  {| initial_state := TURN; debounce_ms := 200; event_edge := RISING;
     strobe_ms := 500; name := "sw2"; pin_enable := 5; pin_turn := 6;
     pin_straight := 13; pin_button := 22 |}.

Definition straight_taken_world : World :=
  (L298NSwitch_init bcm_pin sw2_on_straight_pin (sw1_world [])).2.

(** A config naming a pin the header does not have. *)
Definition sw_bad_pin : L298NSwitchSettings :=
  {| initial_state := TURN; debounce_ms := 200; event_edge := RISING;
     strobe_ms := 500; name := "sw1"; pin_enable := 17; pin_turn := 27;
     pin_straight := 40; pin_button := 23 |}.

(** A second switch on pins of its own, and its record. *)
Definition sw2 : L298NSwitchSettings :=
  {| initial_state := STRAIGHT; debounce_ms := 100; event_edge := RISING;
     strobe_ms := 250; name := "sw2"; pin_enable := 5; pin_turn := 6;
     pin_straight := 13; pin_button := 19 |}.

Definition sw2_record : gmap string yaml :=
  {[ "name" := YStr "sw2"; "initial_state" := YStr "STRAIGHT";
     "debounce_ms" := YInt 100; "strobe_ms" := YInt 250;
     "pin_enable" := YInt 5; "pin_turn" := YInt 6;
     "pin_straight" := YInt 13; "pin_button" := YInt 19 ]}.

(** [sw1], then [sw2], constructed on a fresh chip. *)
Definition sw1_sw2_world : World :=
  (L298NSwitch_init bcm_pin sw2 (sw1_world [])).2.

(** The switch object the constructor leaves for a config. *)
Definition initial_object (cfg : L298NSwitchSettings) : L298NSwitch :=
  {| config := cfg; state := Some (SwitchPosition_value (initial_state cfg)) |}.

(** What holds between the rounds of the registration loop run on a fresh
    chip, [done] being the configs registered so far: the heap holds
    their objects in order, each switch is at rest on its initial
    position, and interrupts are armed on their buttons only. *)
Definition registered (done : list L298NSwitchSettings) (w : World) : Prop :=
  heap w = initial_object <$> done
  ∧ (∀ i cfg, done !! i = Some cfg → settled i cfg (initial_state cfg) w)
  ∧ (∀ pin, is_Some (GPIO.detects (gpio w) !! pin) → pin ∈ pin_button <$> done).

(** ** Running the monad *)

Lemma run_bind {A B} (m : M A) (f : A → M B) (w : World) :
  (m ≫= f) w =
  match m w with
  | (Ok a, w') => f a w'
  | (Raise e, w') => (Raise e, w')
  end.
Proof. reflexivity. Qed.

Lemma run_ret {A} (a : A) (w : World) : (mret a : M A) w = (Ok a, w).
Proof. reflexivity. Qed.

Lemma get_self_run (self : nat) (o : L298NSwitch) (w : World) :
  heap w !! self = Some o → get_self self w = (Ok o, w).
Proof. intros H. unfold get_self. by rewrite H. Qed.

Lemma chip_ok op ev (g : GPIO.t) (w : World) :
  op (gpio w) = Ok g →
  chip op ev w = (Ok (), with_trace (trace w ++ [ev]) (with_gpio g w)).
Proof. intros H. unfold chip. by rewrite H. Qed.

Lemma chip_raise op ev (e : exn) (w : World) :
  op (gpio w) = Raise e → chip op ev w = (Raise e, w).
Proof. intros H. unfold chip. by rewrite H. Qed.

Lemma output_ok (pin : Z) (v : bool) (g : GPIO.t) :
  GPIO.modes g !! pin = Some OUT →
  GPIO.output pin v g =
  Ok {| GPIO.modes := GPIO.modes g;
        GPIO.levels := <[pin := v]> (GPIO.levels g);
        GPIO.detects := GPIO.detects g |}.
Proof. intros H. unfold GPIO.output. by rewrite H. Qed.

Lemma output_raise (pin : Z) (v : bool) (g : GPIO.t) :
  GPIO.modes g !! pin ≠ Some OUT → GPIO.output pin v g = Raise PinIOError.
Proof.
  intros H. unfold GPIO.output.
  destruct (GPIO.modes g !! pin) as [[]|]; congruence.
Qed.

(** ** The methods, run on a world *)

Ltac world_simpl :=
  cbn [with_trace with_gpio with_heap with_incoming with_fired
       gpio heap trace incoming fired config state
       GPIO.modes GPIO.levels GPIO.detects GPIO.remove_event_detect].

Ltac side :=
  world_simpl;
  first [ eassumption
        | apply list_lookup_insert_eq; assumption
        | apply lookup_delete_eq
        | lia ].

Ltac run_with lem :=
  rewrite run_bind; erewrite lem by side; cbv beta iota; world_simpl.

Lemma get_state_run (self : nat) (o : L298NSwitch) (w : World) :
  heap w !! self = Some o → get_state self w = (Ok (state o), w).
Proof. intros H. unfold get_state. by run_with get_self_run. Qed.

Lemma set_state_run (self : nat) (o : L298NSwitch) (v : Z) (w : World) :
  heap w !! self = Some o →
  set_state self v w =
  (Ok (), with_trace (trace w ++ [EvLogDebug (name (config o)) v])
            (with_heap (<[self := {| config := config o; state := Some v |}]> (heap w)) w)).
Proof. intros H. unfold set_state. by run_with get_self_run. Qed.

Lemma enable_switch_run (self : nat) (o : L298NSwitch) (w : World) :
  heap w !! self = Some o →
  GPIO.modes (gpio w) !! pin_enable (config o) = Some OUT →
  enable_switch self w =
  (Ok (), with_trace (trace w ++ [EvOutput (pin_enable (config o)) true])
            (with_gpio {| GPIO.modes := GPIO.modes (gpio w);
                          GPIO.levels := <[pin_enable (config o) := true]> (GPIO.levels (gpio w));
                          GPIO.detects := GPIO.detects (gpio w) |} w)).
Proof.
  intros H Hm. unfold enable_switch. run_with get_self_run.
  apply chip_ok. by apply output_ok.
Qed.

Lemma disable_switch_run (self : nat) (o : L298NSwitch) (w : World) :
  heap w !! self = Some o →
  GPIO.modes (gpio w) !! pin_enable (config o) = Some OUT →
  disable_switch self w =
  (Ok (), with_trace (trace w ++ [EvOutput (pin_enable (config o)) false])
            (with_gpio {| GPIO.modes := GPIO.modes (gpio w);
                          GPIO.levels := <[pin_enable (config o) := false]> (GPIO.levels (gpio w));
                          GPIO.detects := GPIO.detects (gpio w) |} w)).
Proof.
  intros H Hm. unfold disable_switch. run_with get_self_run.
  apply chip_ok. by apply output_ok.
Qed.

Lemma set_direction_pins_run (self : nat) (cfg : L298NSwitchSettings) (s : Z) (w : World) :
  heap w !! self = Some {| config := cfg; state := Some s |} →
  GPIO.modes (gpio w) !! pin_turn cfg = Some OUT →
  GPIO.modes (gpio w) !! pin_straight cfg = Some OUT →
  set_direction_pins self w =
  (Ok (), with_trace (trace w ++ [EvOutput (pin_turn cfg) (negb (truthy s));
                                  EvOutput (pin_straight cfg) (truthy s)])
            (with_gpio {| GPIO.modes := GPIO.modes (gpio w);
                          GPIO.levels := <[pin_straight cfg := truthy s]>
                                           (<[pin_turn cfg := negb (truthy s)]> (GPIO.levels (gpio w)));
                          GPIO.detects := GPIO.detects (gpio w) |} w)).
Proof.
  intros H Ht Hs. unfold set_direction_pins.
  run_with get_self_run. run_with get_state_run. simpl.
  rewrite run_bind. erewrite chip_ok by (by apply output_ok). cbv beta iota.
  erewrite chip_ok by (by apply output_ok).
  unfold with_trace, with_gpio; simpl. by rewrite <- app_assoc.
Qed.

Lemma strobe_run (clock : Clock) (self : nat) (o : L298NSwitch) (w : World) :
  heap w !! self = Some o → 0 ≤ strobe_ms (config o) ≤ sleep_max_ms clock →
  strobe clock self w =
  (Ok (), with_trace (trace w ++ [EvSleep (strobe_ms (config o))])
            (with_fired (foldl (fire (GPIO.detects (gpio w))) (fired w) (hd [] (incoming w)))
               (with_incoming (tl (incoming w)) w))).
Proof.
  intros H Hs. unfold sleep_max_ms, representable_ms in Hs.
  unfold strobe. run_with get_self_run.
  rewrite run_bind. unfold truediv_1000.
  destruct (Z.ltb_spec (float_max_ms clock) (Z.abs (strobe_ms (config o)))); [lia |].
  rewrite run_ret. cbv beta iota. unfold time_sleep.
  destruct (Z.ltb_spec (time_t_max_ms clock) (Z.abs (strobe_ms (config o)))); [lia |].
  destruct (Z.ltb_spec (strobe_ms (config o)) 0); [lia |].
  destruct (Z.ltb_spec (os_sleep_max_ms clock) (strobe_ms (config o))); [lia | done].
Qed.

Lemma strobe_raise (clock : Clock) (self : nat) (o : L298NSwitch) (w : World) :
  heap w !! self = Some o →
  strobe_ms (config o) < 0 ∨ sleep_max_ms clock < strobe_ms (config o) →
  ∃ e, strobe clock self w = (Raise e, w)
    ∧ (- representable_ms clock ≤ strobe_ms (config o) < 0 →
       e = ValueError "sleep length must be non-negative").
Proof.
  intros H Hs. unfold sleep_max_ms, representable_ms in *.
  unfold strobe. run_with get_self_run.
  rewrite run_bind. unfold truediv_1000.
  destruct (Z.ltb_spec (float_max_ms clock) (Z.abs (strobe_ms (config o)))).
  { eexists. split; [reflexivity | lia]. }
  rewrite run_ret. cbv beta iota. unfold time_sleep.
  destruct (Z.ltb_spec (time_t_max_ms clock) (Z.abs (strobe_ms (config o)))).
  { eexists. split; [reflexivity | lia]. }
  destruct (Z.ltb_spec (strobe_ms (config o)) 0).
  { eexists. split; [reflexivity | done]. }
  destruct (Z.ltb_spec (os_sleep_max_ms clock) (strobe_ms (config o))).
  { eexists. split; [reflexivity | lia]. }
  lia.
Qed.

Lemma strobe_cases (clock : Clock) (self : nat) (o : L298NSwitch) (w : World) :
  heap w !! self = Some o →
  (∃ e, strobe clock self w = (Raise e, w))
  ∨ strobe clock self w =
    (Ok (), with_trace (trace w ++ [EvSleep (strobe_ms (config o))])
              (with_fired (foldl (fire (GPIO.detects (gpio w))) (fired w) (hd [] (incoming w)))
                 (with_incoming (tl (incoming w)) w))).
Proof.
  intros H. unfold strobe. run_with get_self_run.
  rewrite run_bind. unfold truediv_1000.
  destruct (float_max_ms clock <? Z.abs (strobe_ms (config o))); [left; by eexists |].
  rewrite run_ret. cbv beta iota. unfold time_sleep.
  destruct (time_t_max_ms clock <? Z.abs (strobe_ms (config o))); [left; by eexists |].
  destruct (strobe_ms (config o) <? 0); [left; by eexists |].
  destruct (os_sleep_max_ms clock <? strobe_ms (config o)); [left; by eexists |].
  by right.
Qed.

Lemma enable_button_interrupt_run (self : nat) (o : L298NSwitch) (w : World) :
  heap w !! self = Some o →
  GPIO.detects (gpio w) !! pin_button (config o) = None →
  enable_button_interrupt self w =
  (Ok (), with_trace (trace w ++ [EvAddEventDetect (pin_button (config o)) RISING (debounce_ms (config o))])
            (with_gpio {| GPIO.modes := GPIO.modes (gpio w);
                          GPIO.levels := GPIO.levels (gpio w);
                          GPIO.detects :=
                            <[pin_button (config o) :=
                                {| d_edge := RISING; d_callback := self;
                                   d_bouncetime := debounce_ms (config o) |}]>
                              (GPIO.detects (gpio w)) |} w)).
Proof.
  intros H Hd. unfold enable_button_interrupt. run_with get_self_run.
  apply chip_ok. unfold GPIO.add_event_detect. by rewrite Hd.
Qed.

Lemma disable_button_interrupt_run (self : nat) (o : L298NSwitch) (w : World) :
  heap w !! self = Some o →
  disable_button_interrupt self w =
  (Ok (), with_trace (trace w ++ [EvRemoveEventDetect (pin_button (config o))])
            (with_gpio (GPIO.remove_event_detect (pin_button (config o)) (gpio w)) w)).
Proof. intros H. unfold disable_button_interrupt. by run_with get_self_run. Qed.

(** ** The idle switch and one toggle *)

Lemma toggle_run (clock : Clock) (self : nat) (cfg : L298NSwitchSettings) (p : Z) (channel : Z) (w : World) :
  idle self cfg p w → 0 ≤ strobe_ms cfg ≤ sleep_max_ms clock →
  toggle clock self channel w = (Ok (), toggled self cfg p w).
Proof.
  intros (Hh & Hen & Htu & Hst & Hlv & Hd) Hs.
  pose proof (lookup_lt_Some _ _ _ Hh) as Hlt.
  unfold toggle.
  run_with disable_button_interrupt_run.
  run_with get_state_run. simpl from_option.
  rewrite run_bind, run_ret. cbv beta iota.
  run_with set_state_run.
  run_with enable_switch_run.
  run_with set_direction_pins_run.
  run_with strobe_run.
  run_with disable_switch_run.
  erewrite enable_button_interrupt_run by side. world_simpl.
  unfold toggled, toggle_events, armed. rewrite <- !app_assoc. reflexivity.
Qed.

Lemma idle_toggled (self : nat) (cfg : L298NSwitchSettings) (p : Z) (w : World) :
  idle self cfg p w → idle self cfg (Z.lxor p 1) (toggled self cfg p w).
Proof.
  intros (Hh & Hen & Htu & Hst & Hlv & Hd).
  pose proof (lookup_lt_Some _ _ _ Hh) as Hlt.
  unfold idle, toggled. world_simpl.
  repeat split; try assumption.
  - by apply list_lookup_insert_eq.
  - apply lookup_insert_eq.
  - apply lookup_insert_eq.
Qed.

(** ** Construction *)

Lemma setup_ok valid_pin (pin : Z) (m : PinMode) (g : GPIO.t) :
  valid_pin pin = true →
  GPIO.setup valid_pin pin m g =
  Ok {| GPIO.modes := <[pin := m]> (GPIO.modes g);
        GPIO.levels := GPIO.levels g;
        GPIO.detects := GPIO.detects g |}.
Proof. intros H. unfold GPIO.setup. by rewrite H. Qed.

Ltac lookup_chain :=
  repeat (rewrite lookup_insert; case_decide; [done |]); try done.

Lemma init_pins_run valid_pin (self : nat) (cfg : L298NSwitchSettings) (w : World) :
  valid_pins valid_pin cfg →
  heap w !! self = Some {| config := cfg;
                           state := Some (SwitchPosition_value (initial_state cfg)) |} →
  init_pins valid_pin self w =
  (Ok (), with_trace (trace w ++ tl (construct_events cfg))
            (with_gpio (pins_initialised cfg (gpio w)) w)).
Proof.
  intros (Ve & Vt & Vs & Vb) Hh. unfold init_pins.
  run_with get_self_run.
  do 4 (rewrite run_bind; erewrite chip_ok by (by apply setup_ok);
        cbv beta iota; world_simpl).
  rewrite run_bind. erewrite disable_switch_run; [| side | world_simpl; lookup_chain].
  cbv beta iota. world_simpl.
  erewrite set_direction_pins_run; [| side | world_simpl; lookup_chain ..].
  world_simpl. unfold pins_initialised, construct_events. simpl tl.
  rewrite <- !app_assoc. reflexivity.
Qed.

Lemma alloc_set_state_heap (h : list L298NSwitch) (o o' : L298NSwitch) :
  (<[length h := o']> (h ++ [o]) = h ++ [o'])%list.
Proof.
  rewrite insert_app_r_alt by lia. by rewrite Nat.sub_diag.
Qed.

Ltac construct_steps :=
  unfold L298NSwitch_init;
  rewrite run_bind; unfold alloc at 1; cbv beta iota;
  rewrite run_bind;
  erewrite set_state_run by (world_simpl; apply list_lookup_middle; reflexivity);
  cbv beta iota; world_simpl; rewrite alloc_set_state_heap;
  rewrite run_bind;
  erewrite init_pins_run;
    [| eassumption | world_simpl; apply list_lookup_middle; reflexivity];
  cbv beta iota; world_simpl;
  rewrite run_bind.

Lemma construct_run valid_pin (cfg : L298NSwitchSettings) (w : World) :
  valid_pins valid_pin cfg →
  GPIO.detects (gpio w) !! pin_button cfg = None →
  L298NSwitch_init valid_pin cfg w = (Ok (length (heap w)), constructed cfg w).
Proof.
  intros V Hd. construct_steps.
  erewrite enable_button_interrupt_run;
    [| world_simpl; apply list_lookup_middle; reflexivity | exact Hd].
  cbv beta iota. world_simpl. rewrite run_ret.
  unfold constructed, half_constructed, construct_events, armed. world_simpl.
  simpl tl. rewrite <- !app_assoc. reflexivity.
Qed.

Lemma construct_already_armed valid_pin (cfg : L298NSwitchSettings) (w : World) :
  valid_pins valid_pin cfg →
  is_Some (GPIO.detects (gpio w) !! pin_button cfg) →
  L298NSwitch_init valid_pin cfg w
  = (Raise InterruptAlreadyArmedError, half_constructed cfg w).
Proof.
  intros V [d Hd]. construct_steps.
  unfold enable_button_interrupt.
  rewrite run_bind.
  erewrite get_self_run by (world_simpl; apply list_lookup_middle; reflexivity).
  cbv beta iota. world_simpl.
  erewrite chip_raise
    by (unfold GPIO.add_event_detect, pins_initialised; world_simpl; by rewrite Hd).
  unfold half_constructed, construct_events, with_trace, with_gpio, with_heap.
  world_simpl. simpl tl. rewrite <- !app_assoc. reflexivity.
Qed.

Lemma idle_constructed (cfg : L298NSwitchSettings) (w : World) :
  pin_enable cfg ≠ pin_turn cfg → pin_enable cfg ≠ pin_straight cfg →
  idle (length (heap w)) cfg (SwitchPosition_value (initial_state cfg))
    (constructed cfg w).
Proof.
  intros Ht Hs. unfold idle, constructed, half_constructed, pins_initialised.
  world_simpl. repeat split.
  - by apply list_lookup_middle.
  - lookup_chain.
  - lookup_chain.
  - lookup_chain.
  - rewrite !lookup_insert. repeat case_decide; congruence.
  - apply lookup_insert_eq.
Qed.

(** ** Edges delivered to an idle switch *)

Lemma lxor_flip (P : SwitchPosition) :
  Z.lxor (SwitchPosition_value P) 1 = SwitchPosition_value (flip P).
Proof. by destruct P. Qed.

Lemma deliver_idle (clock : Clock) (self : nat) (cfg : L298NSwitchSettings) (p : Z) (w : World) :
  idle self cfg p w → 0 ≤ strobe_ms cfg ≤ sleep_max_ms clock →
  deliver clock (pin_button cfg, Rise) w = (Some (Ok ()), toggled self cfg p w).
Proof.
  intros Hi Hs. unfold deliver. simpl.
  destruct Hi as (Hh & Hen & Htu & Hst & Hlv & Hd). rewrite Hd. simpl.
  by rewrite (toggle_run clock self cfg p) by done.
Qed.

Lemma fire_disarmed (d : gmap Z Detect) (pin : Z) (cb : nat)
    (evs : list (Z * Transition)) (f : list (nat * Z)) :
  d !! pin = None → (cb, pin) ∈ foldl (fire d) f evs → (cb, pin) ∈ f.
Proof.
  intros Hd. revert f. induction evs as [| [q t] evs IH]; intros f; [done |].
  simpl. intros H. apply IH in H. unfold fire in H. simpl in H.
  destruct (d !! q) as [det |] eqn:Hq; [| done].
  destruct (edge_matches (d_edge det) t); [| done].
  apply elem_of_app in H as [H | H]; [done |].
  apply list_elem_of_singleton in H. congruence.
Qed.

Lemma deliver_idle_fall (clock : Clock) (self : nat) (cfg : L298NSwitchSettings) (p : Z) (w : World) :
  idle self cfg p w → deliver clock (pin_button cfg, Fall) w = (None, w).
Proof.
  intros (_ & _ & _ & _ & _ & Hd). unfold deliver. cbn [fst snd].
  by rewrite Hd.
Qed.

Lemma toggle_raise_disarmed (clock : Clock) (self : nat) (cfg : L298NSwitchSettings)
    (p channel : Z) (w : World) (e : exn) (w' : World) :
  heap w !! self = Some {| config := cfg; state := Some p |} →
  toggle clock self channel w = (Raise e, w') →
  GPIO.detects (gpio w') !! pin_button cfg = None
  ∧ heap w' !! self = Some {| config := cfg; state := Some (Z.lxor p 1) |}.
Proof.
  intros Hh. pose proof (lookup_lt_Some _ _ _ Hh) as Hlt.
  unfold toggle.
  run_with disable_button_interrupt_run.
  run_with get_state_run. simpl from_option.
  rewrite run_bind, run_ret. cbv beta iota.
  run_with set_state_run.
  rewrite run_bind. unfold enable_switch. run_with get_self_run.
  destruct (decide (GPIO.modes (gpio w) !! pin_enable cfg = Some OUT)) as [Hen | Hen].
  2:{ erewrite chip_raise by (apply output_raise; side).
      intros [= <- <-]. world_simpl.
      split; [apply lookup_delete_eq | by apply list_lookup_insert_eq]. }
  erewrite chip_ok by (apply output_ok; side). cbv beta iota. world_simpl.
  rewrite run_bind. unfold set_direction_pins.
  run_with get_self_run. run_with get_state_run. simpl from_option.
  rewrite run_bind.
  destruct (decide (GPIO.modes (gpio w) !! pin_turn cfg = Some OUT)) as [Htu | Htu].
  2:{ erewrite chip_raise by (apply output_raise; side).
      intros [= <- <-]. world_simpl.
      split; [apply lookup_delete_eq | by apply list_lookup_insert_eq]. }
  erewrite chip_ok by (apply output_ok; side). cbv beta iota. world_simpl.
  destruct (decide (GPIO.modes (gpio w) !! pin_straight cfg = Some OUT)) as [Hst | Hst].
  2:{ erewrite chip_raise by (apply output_raise; side).
      intros [= <- <-]. world_simpl.
      split; [apply lookup_delete_eq | by apply list_lookup_insert_eq]. }
  erewrite chip_ok by (apply output_ok; side). cbv beta iota. world_simpl.
  rewrite run_bind.
  match goal with |- context [strobe clock self ?w1] =>
    destruct (strobe_cases clock self {| config := cfg; state := Some (Z.lxor p 1) |} w1)
      as [[e' Hr] | Hr]; [side | |]; rewrite Hr
  end.
  { intros [= <- <-]. world_simpl.
    split; [apply lookup_delete_eq | by apply list_lookup_insert_eq]. }
  cbv beta iota. world_simpl.
  run_with disable_switch_run.
  erewrite enable_button_interrupt_run by side.
  discriminate.
Qed.

Lemma deliver_all_disarmed (clock : Clock) (cfg : L298NSwitchSettings) (ts : list Transition) (w : World) :
  GPIO.detects (gpio w) !! pin_button cfg = None →
  deliver_all clock (on_button cfg ts) w = ((λ _, None) <$> ts, w).
Proof.
  intros Hd. induction ts as [| t ts IH]; [done |].
  unfold on_button. rewrite !fmap_cons. fold (on_button cfg ts).
  cbn [deliver_all]. unfold deliver at 1. cbn [fst snd]. by rewrite Hd, IH.
Qed.

Lemma toggle_strobe_raise (clock : Clock) (self : nat) (cfg : L298NSwitchSettings)
    (p channel : Z) (w : World) :
  idle self cfg p w →
  strobe_ms cfg < 0 ∨ sleep_max_ms clock < strobe_ms cfg →
  ∃ e w', toggle clock self channel w = (Raise e, w')
    ∧ trace w' =
      (trace w ++
       [ EvRemoveEventDetect (pin_button cfg);
         EvLogDebug (name cfg) (Z.lxor p 1);
         EvOutput (pin_enable cfg) true;
         EvOutput (pin_turn cfg) (negb (truthy (Z.lxor p 1)));
         EvOutput (pin_straight cfg) (truthy (Z.lxor p 1)) ])%list
    ∧ GPIO.levels (gpio w') =
      <[pin_straight cfg := truthy (Z.lxor p 1)]>
        (<[pin_turn cfg := negb (truthy (Z.lxor p 1))]>
           (<[pin_enable cfg := true]> (GPIO.levels (gpio w))))
    ∧ (- representable_ms clock ≤ strobe_ms cfg < 0 →
       e = ValueError "sleep length must be non-negative").
Proof.
  intros (Hh & Hen & Htu & Hst & Hlv & Hd) Hs.
  pose proof (lookup_lt_Some _ _ _ Hh) as Hlt.
  unfold toggle.
  run_with disable_button_interrupt_run.
  run_with get_state_run. simpl from_option.
  rewrite run_bind, run_ret. cbv beta iota.
  run_with set_state_run.
  run_with enable_switch_run.
  run_with set_direction_pins_run.
  rewrite run_bind.
  match goal with |- context [strobe clock self ?w1] =>
    destruct (strobe_raise clock self {| config := cfg; state := Some (Z.lxor p 1) |} w1)
      as (e & Hr & He); [side | exact Hs |]
  end.
  rewrite Hr.
  eexists _, _. split; [reflexivity |]. world_simpl.
  split; [by rewrite <- !app_assoc |]. by split.
Qed.

Lemma accepted_dropped (ts : list Transition) :
  accepted ((λ _, None) <$> ts) = O.
Proof. by induction ts. Qed.

(** Whatever [strobe_ms] is: the position of a switch that is idle, or
    whose interrupt is gone, has been flipped once per accepted
    transition. *)
Lemma accepted_parity (clock : Clock) (self : nat) (cfg : L298NSwitchSettings)
    (ts : list Transition) (P : SwitchPosition) (w : World) :
  idle self cfg (SwitchPosition_value P) w
  ∨ (heap w !! self
     = Some {| config := cfg; state := Some (SwitchPosition_value P) |}
     ∧ GPIO.detects (gpio w) !! pin_button cfg = None) →
  heap (deliver_all clock (on_button cfg ts) w).2 !! self
  = Some {| config := cfg;
            state := Some (SwitchPosition_value
                             (if Nat.even (accepted (deliver_all clock (on_button cfg ts) w).1)
                              then P else flip P)) |}.
Proof.
  revert P w. induction ts as [| t ts IH]; intros P w [Hi | [Hh Hd]].
  - by destruct Hi.
  - done.
  - unfold on_button. rewrite fmap_cons. fold (on_button cfg ts).
    cbn [deliver_all]. destruct t.
    + assert (∃ r w1,
                deliver clock (pin_button cfg, Rise) w = (Some r, w1)
                ∧ (idle self cfg (SwitchPosition_value (flip P)) w1
                   ∨ (heap w1 !! self
                      = Some {| config := cfg;
                                state := Some (SwitchPosition_value (flip P)) |}
                      ∧ GPIO.detects (gpio w1) !! pin_button cfg = None)))
        as (r & w1 & Hrun & Hnext).
      { destruct (decide (0 ≤ strobe_ms cfg ≤ sleep_max_ms clock)) as [Hs | Hs].
        - eexists _, _. split; [by apply (deliver_idle clock self cfg _ w Hi) |].
          left. rewrite <- lxor_flip. by apply idle_toggled.
        - destruct (toggle_strobe_raise clock self cfg _ (pin_button cfg) w Hi)
            as (e & w1 & Hrun & _); [lia |].
          destruct Hi as (Hh & _ & _ & _ & _ & Hd).
          destruct (toggle_raise_disarmed clock self cfg _ _ w e w1 Hh Hrun)
            as [Hnone Hst].
          exists (Raise e), w1. split.
          + unfold deliver. cbn [fst snd]. rewrite Hd.
            cbn [armed d_edge d_callback edge_matches]. by rewrite Hrun.
          + right. by rewrite <- lxor_flip. }
      rewrite Hrun. specialize (IH (flip P) w1 Hnext).
      destruct (deliver_all clock (on_button cfg ts) w1) as [rs w2].
      cbn [fst snd] in *. rewrite IH.
      change (accepted (Some r :: rs)) with (S (accepted rs)).
      rewrite Nat.even_succ, <- Nat.negb_even.
      by destruct (Nat.even (accepted rs)), P.
    + rewrite (deliver_idle_fall clock self cfg _ w Hi).
      specialize (IH P w (or_introl Hi)).
      destruct (deliver_all clock (on_button cfg ts) w) as [rs w2].
      cbn [fst snd] in *. exact IH.
  - rewrite (deliver_all_disarmed clock cfg (t :: ts) w Hd). cbn [fst snd].
    by rewrite accepted_dropped.
Qed.

(** ** The claims *)

(** C1 (as amended). With [strobe_ms] between 0 and the longest sleep
    the platform takes, an accepted button edge received in [Idle(P)] runs
    the handler to completion in this order: the button interrupt is
    disarmed; the new position [flip P] is computed, stored as the current
    position and logged; the enable line is asserted; the direction pins
    are driven for the new position; the handler holds for [strobe_ms];
    the enable line is de-asserted; the interrupt is re-armed. So the
    enable line is asserted before the direction pins are driven, and the
    position is updated before the driver is enabled. *)
Theorem toggle_order (clock : Clock) (self : nat) (cfg : L298NSwitchSettings)
    (P : SwitchPosition) (w : World) :
  idle self cfg (SwitchPosition_value P) w → 0 ≤ strobe_ms cfg ≤ sleep_max_ms clock →
  ∃ w', deliver clock (pin_button cfg, Rise) w = (Some (Ok ()), w')
    ∧ heap w' !! self
      = Some {| config := cfg; state := Some (SwitchPosition_value (flip P)) |}
    ∧ trace w' =
      (trace w ++
       [ EvRemoveEventDetect (pin_button cfg);
         EvLogDebug (name cfg) (SwitchPosition_value (flip P));
         EvOutput (pin_enable cfg) true;
         EvOutput (pin_turn cfg) (negb (truthy (SwitchPosition_value (flip P))));
         EvOutput (pin_straight cfg) (truthy (SwitchPosition_value (flip P)));
         EvSleep (strobe_ms cfg);
         EvOutput (pin_enable cfg) false;
         EvAddEventDetect (pin_button cfg) RISING (debounce_ms cfg) ])%list.
Proof.
  intros Hi Hs. eexists. split; [by apply deliver_idle |].
  destruct (idle_toggled _ _ _ _ Hi) as (Hh & _).
  rewrite lxor_flip in Hh. split; [exact Hh |].
  unfold toggled, toggle_events. world_simpl. by rewrite lxor_flip.
Qed.

Lemma toggle_order_witness :
  ∃ w', deliver sample_clock (23, Rise) (sw1_world []) = (Some (Ok ()), w')
    ∧ heap w' !! 0%nat = Some {| config := sw1; state := Some 1 |}
    ∧ trace w' =
      (trace (sw1_world []) ++
       [ EvRemoveEventDetect 23; EvLogDebug "sw1" 1; EvOutput 17 true;
         EvOutput 27 false; EvOutput 22 true; EvSleep 500;
         EvOutput 17 false; EvAddEventDetect 23 RISING 200 ])%list.
Proof.
  apply (toggle_order sample_clock 0 sw1 TURN (sw1_world [])).
  - unfold idle. vm_compute. repeat split.
  - split; vm_compute; discriminate.
Defined.

(** C1 (as stated) fails on the scenario of section 8: the handler
    completes, but what it did is not in the order of section 4.2. *)
Lemma toggle_order_counterexample :
  (deliver sample_clock (23, Rise) (sw1_world [])).1 = Some (Ok ())
  ∧ trace (deliver sample_clock (23, Rise) (sw1_world [])).2
    ≠ (trace (sw1_world []) ++ section_4_2_events sw1 1)%list.
Proof.
  split; [by vm_compute |].
  vm_compute. discriminate.
Qed.

(** C4. From any position [P] of an idle switch: whatever transitions
    reach its button, the current position afterwards is [P] when the
    number of accepted ones is even and [flip P] when it is odd. And with
    [strobe_ms] between 0 and the longest sleep the platform takes, any
    number [n] of rising edges are all accepted and handled to completion,
    leaving [P] for [n] even and [flip P] for [n] odd. *)
Theorem toggle_parity (clock : Clock) (self : nat) (cfg : L298NSwitchSettings)
    (P : SwitchPosition) (w : World) :
  idle self cfg (SwitchPosition_value P) w →
  (∀ ts : list Transition,
     heap (deliver_all clock (on_button cfg ts) w).2 !! self
     = Some {| config := cfg;
               state := Some (SwitchPosition_value
                                (if Nat.even (accepted (deliver_all clock (on_button cfg ts) w).1)
                                 then P else flip P)) |})
  ∧ (0 ≤ strobe_ms cfg ≤ sleep_max_ms clock →
     ∀ n : nat,
       (deliver_all clock (replicate n (pin_button cfg, Rise)) w).1
         = replicate n (Some (Ok ()))
       ∧ heap (deliver_all clock (replicate n (pin_button cfg, Rise)) w).2 !! self
         = Some {| config := cfg;
                   state := Some (SwitchPosition_value
                                    (if Nat.even n then P else flip P)) |}).
Proof.
  intros Hi. split.
  - intros ts. apply accepted_parity. by left.
  - intros Hs n. revert P w Hi.
    induction n as [| n IH]; intros P w Hi.
    + simpl. split; [done |]. by destruct Hi.
    + cbn [replicate deliver_all].
      rewrite (deliver_idle clock self cfg _ w Hi Hs).
      pose proof (idle_toggled _ _ _ _ Hi) as Hi'. rewrite lxor_flip in Hi'.
      destruct (IH (flip P) _ Hi') as [Ho Hst].
      destruct (deliver_all _ _ (toggled _ _ _ w)) as [rs w2]. cbn [fst snd] in *.
      split; [by rewrite Ho |].
      rewrite Hst, Nat.even_succ, <- Nat.negb_even.
      destruct (Nat.even n), P; reflexivity.
Qed.

Lemma toggle_parity_witness :
  heap (deliver_all sample_clock (on_button sw1 [Rise; Fall; Rise; Rise])
          (sw1_world [])).2 !! 0%nat
    = Some {| config := sw1; state := Some 1 |}
  ∧ (deliver_all sample_clock (replicate 3 (23, Rise)) (sw1_world [])).1
    = replicate 3 (Some (Ok ()))
  ∧ heap (deliver_all sample_clock (replicate 3 (23, Rise)) (sw1_world [])).2 !! 0%nat
    = Some {| config := sw1; state := Some 1 |}.
Proof.
  destruct (toggle_parity sample_clock 0 sw1 TURN (sw1_world [])) as [Hany Hn].
  - unfold idle. vm_compute. repeat split.
  - split; [exact (Hany [Rise; Fall; Rise; Rise]) |].
    apply (Hn ltac:(split; vm_compute; discriminate) 3%nat).
Defined.

(** C5. For a config with four valid, pairwise distinct pins whose
    button pin holds no armed interrupt, the constructor returns; the
    current position is then the config's [initial_state], the enable
    line reads de-asserted, and nothing the constructor did asserted the
    enable line. *)
Theorem construction_initial_state (valid_pin : Z → bool)
    (cfg : L298NSwitchSettings) (w : World) :
  valid_pins valid_pin cfg → distinct_pins cfg →
  GPIO.detects (gpio w) !! pin_button cfg = None →
  ∃ self w' evs,
    L298NSwitch_init valid_pin cfg w = (Ok self, w')
    ∧ heap w' !! self
      = Some {| config := cfg;
                state := Some (SwitchPosition_value (initial_state cfg)) |}
    ∧ GPIO.levels (gpio w') !! pin_enable cfg = Some false
    ∧ trace w' = (trace w ++ evs)%list
    ∧ EvOutput (pin_enable cfg) true ∉ evs.
Proof.
  intros V D Hd.
  apply NoDup_cons in D as [D _].
  assert (pin_enable cfg ≠ pin_turn cfg ∧ pin_enable cfg ≠ pin_straight cfg)
    as [Ht Hs] by (split; intros E; apply D; rewrite E; set_solver).
  destruct (idle_constructed cfg w Ht Hs) as (Hh & _ & _ & _ & Hlv & _).
  exists (length (heap w)), (constructed cfg w). eexists.
  split; [by apply construct_run |].
  split; [exact Hh |]. split; [exact Hlv |].
  split; [reflexivity |].
  unfold construct_events. intros H.
  repeat (apply elem_of_cons in H as [H | H]; [congruence |]).
  by apply elem_of_nil in H.
Qed.

Lemma construction_initial_state_witness :
  ∃ self w' evs,
    L298NSwitch_init bcm_pin sw1 (boot []) = (Ok self, w')
    ∧ heap w' !! self = Some {| config := sw1; state := Some 0 |}
    ∧ GPIO.levels (gpio w') !! 17 = Some false
    ∧ trace w' = (trace (boot []) ++ evs)%list
    ∧ EvOutput 17 true ∉ evs.
Proof.
  apply (construction_initial_state bcm_pin sw1 (boot [])).
  - by vm_compute.
  - unfold distinct_pins. simpl.
    repeat (apply NoDup_cons; split; [set_unfold; lia |]).
    apply NoDup_nil_2.
  - reflexivity.
Defined.

(** C6. With [strobe_ms] between 0 and the longest sleep the platform
    takes, a toggle started in [Idle(P)] completes. While it holds for
    [strobe_ms] no interrupt is armed on the button pin: whatever
    transitions reach the pins meanwhile, none on the button pin fires a
    callback, and the position is flipped once. When the handler returns
    the enable line reads de-asserted and the interrupt is armed again,
    and the next accepted edge toggles back to [P]. *)
Theorem strobe_window_disarmed (clock : Clock) (self : nat) (cfg : L298NSwitchSettings)
    (P : SwitchPosition) (w : World) :
  idle self cfg (SwitchPosition_value P) w → 0 ≤ strobe_ms cfg ≤ sleep_max_ms clock →
  ∃ w', deliver clock (pin_button cfg, Rise) w = (Some (Ok ()), w')
    ∧ fired w'
      = foldl (fire (delete (pin_button cfg) (GPIO.detects (gpio w))))
          (fired w) (hd [] (incoming w))
    ∧ (∀ cb, (cb, pin_button cfg) ∈ fired w' → (cb, pin_button cfg) ∈ fired w)
    ∧ trace w'
      = (trace w ++ toggle_events cfg (SwitchPosition_value (flip P)))%list
    ∧ heap w' !! self
      = Some {| config := cfg; state := Some (SwitchPosition_value (flip P)) |}
    ∧ GPIO.levels (gpio w') !! pin_enable cfg = Some false
    ∧ GPIO.detects (gpio w') !! pin_button cfg = Some (armed self cfg)
    ∧ ∃ w'', deliver clock (pin_button cfg, Rise) w' = (Some (Ok ()), w'')
        ∧ heap w'' !! self
          = Some {| config := cfg; state := Some (SwitchPosition_value P) |}.
Proof.
  intros Hi Hs.
  pose proof (idle_toggled _ _ _ _ Hi) as Hi'. rewrite lxor_flip in Hi'.
  exists (toggled self cfg (SwitchPosition_value P) w).
  split; [by apply deliver_idle |].
  split; [reflexivity |].
  split.
  { intros cb. unfold toggled. world_simpl.
    apply fire_disarmed, lookup_delete_eq. }
  split; [unfold toggled; world_simpl; by rewrite lxor_flip |].
  destruct Hi' as (Hh & Hen & Htu & Hst & Hlv & Hd).
  do 3 (split; [done |]).
  assert (idle self cfg (SwitchPosition_value (flip P))
            (toggled self cfg (SwitchPosition_value P) w)) as Hi'
    by (rewrite <- lxor_flip; by apply idle_toggled).
  eexists. split; [by apply deliver_idle |].
  destruct (idle_toggled _ _ _ _ Hi') as (Hh' & _).
  rewrite lxor_flip in Hh'. by destruct P.
Qed.

Lemma strobe_window_disarmed_witness :
  ∃ w', deliver sample_clock (23, Rise) (sw1_world [[(23, Rise); (23, Fall); (23, Rise)]])
        = (Some (Ok ()), w')
    ∧ fired w' = []
    ∧ heap w' !! 0%nat = Some {| config := sw1; state := Some 1 |}
    ∧ GPIO.levels (gpio w') !! 17 = Some false
    ∧ ∃ w'', deliver sample_clock (23, Rise) w' = (Some (Ok ()), w'')
        ∧ heap w'' !! 0%nat = Some {| config := sw1; state := Some 0 |}.
Proof.
  destruct (strobe_window_disarmed sample_clock 0 sw1 TURN
              (sw1_world [[(23, Rise); (23, Fall); (23, Rise)]]))
    as (w' & Hrun & Hfired & _ & _ & Hst & Hlv & _ & Hnext).
  - unfold idle. vm_compute. repeat split.
  - split; vm_compute; discriminate.
  - exists w'. split; [exact Hrun |]. split; [exact Hfired |].
    split; [exact Hst |]. split; [exact Hlv |]. exact Hnext.
Defined.

(** C7. With [truthy] of a position being "is STRAIGHT": the
    constructor, for a config with valid distinct pins, writes NOT
    [initial_state] to the turn pin and [initial_state] to the straight
    pin, right after de-asserting the enable line and without having
    asserted it; every handled toggle, whether or not it completes,
    writes NOT new position to the turn pin and the new position to the
    straight pin right after asserting the enable line, and does not
    write to them again; the pins then read those levels. *)
Theorem direction_pins_follow_position (clock : Clock) (valid_pin : Z → bool)
    (cfg : L298NSwitchSettings) (w0 : World)
    (self : nat) (P : SwitchPosition) (w : World) :
  valid_pins valid_pin cfg → distinct_pins cfg →
  GPIO.detects (gpio w0) !! pin_button cfg = None →
  idle self cfg (SwitchPosition_value P) w →
  let v0 := SwitchPosition_value (initial_state cfg) in
  let v := SwitchPosition_value (flip P) in
  (∃ new w',
     L298NSwitch_init valid_pin cfg w0 = (Ok new, w')
     ∧ trace w' =
       (trace w0 ++
        [ EvLogDebug (name cfg) v0;
          EvSetup (pin_button cfg) IN_PUD_UP;
          EvSetup (pin_enable cfg) OUT;
          EvSetup (pin_straight cfg) OUT;
          EvSetup (pin_turn cfg) OUT;
          EvOutput (pin_enable cfg) false;
          EvOutput (pin_turn cfg) (negb (truthy v0));
          EvOutput (pin_straight cfg) (truthy v0);
          EvAddEventDetect (pin_button cfg) RISING (debounce_ms cfg) ])%list
     ∧ GPIO.levels (gpio w') !! pin_enable cfg = Some false
     ∧ GPIO.levels (gpio w') !! pin_turn cfg = Some (negb (truthy v0))
     ∧ GPIO.levels (gpio w') !! pin_straight cfg = Some (truthy v0))
  ∧ (∃ r w' rest,
       deliver clock (pin_button cfg, Rise) w = (Some r, w')
       ∧ trace w' =
         (trace w ++
          [ EvRemoveEventDetect (pin_button cfg);
            EvLogDebug (name cfg) v;
            EvOutput (pin_enable cfg) true;
            EvOutput (pin_turn cfg) (negb (truthy v));
            EvOutput (pin_straight cfg) (truthy v) ] ++ rest)%list
       ∧ (∀ b, (EvOutput (pin_turn cfg) b ∉ rest)
               ∧ (EvOutput (pin_straight cfg) b ∉ rest))
       ∧ GPIO.levels (gpio w') !! pin_turn cfg = Some (negb (truthy v))
       ∧ GPIO.levels (gpio w') !! pin_straight cfg = Some (truthy v)).
Proof.
  intros V D Hd Hi v0 v.
  assert (pin_enable cfg ≠ pin_turn cfg ∧ pin_enable cfg ≠ pin_straight cfg
          ∧ pin_turn cfg ≠ pin_straight cfg) as (Het & Hes & Hts).
  { clear - D. unfold distinct_pins in D.
    apply NoDup_cons in D as [D1 D]. apply NoDup_cons in D as [D2 _].
    set_unfold. naive_solver. }
  split.
  - exists (length (heap w0)), (constructed cfg w0).
    split; [by apply construct_run |].
    split; [done |].
    unfold constructed, pins_initialised. world_simpl. fold v0.
    repeat split; rewrite !lookup_insert; repeat case_decide; congruence.
  - destruct (decide (0 ≤ strobe_ms cfg ≤ sleep_max_ms clock)) as [Hs | Hs].
    + exists (Ok ()), (toggled self cfg (SwitchPosition_value P) w).
      exists [ EvSleep (strobe_ms cfg); EvOutput (pin_enable cfg) false;
               EvAddEventDetect (pin_button cfg) RISING (debounce_ms cfg) ].
      split; [by apply deliver_idle |].
      unfold toggled, toggle_events. world_simpl. rewrite lxor_flip. fold v.
      split; [done |]. split.
      { intros b. split; intros Hin;
          repeat (apply elem_of_cons in Hin as [Hin | Hin]; [congruence |]);
          by apply elem_of_nil in Hin. }
      split; rewrite !lookup_insert; repeat case_decide; congruence.
    + destruct (toggle_strobe_raise clock self cfg _ (pin_button cfg) w Hi)
        as (e & w' & Hrun & Htr & Hlv & _); [lia |].
      exists (Raise e), w', []. split.
      { destruct Hi as (_ & _ & _ & _ & _ & Hdet).
        unfold deliver. cbn [fst snd]. rewrite Hdet.
        cbn [armed d_edge d_callback edge_matches]. by rewrite Hrun. }
      rewrite Htr, Hlv, lxor_flip. fold v.
      split; [by rewrite app_nil_r |]. split.
      { intros b. split; apply not_elem_of_nil. }
      split; rewrite !lookup_insert; repeat case_decide; congruence.
Qed.

Lemma direction_pins_follow_position_witness :
  (∃ new w',
     L298NSwitch_init bcm_pin sw1 (boot []) = (Ok new, w')
     ∧ GPIO.levels (gpio w') !! 17 = Some false
     ∧ GPIO.levels (gpio w') !! 27 = Some true
     ∧ GPIO.levels (gpio w') !! 22 = Some false)
  ∧ (∃ r w',
       deliver sample_clock (23, Rise) (sw1_world []) = (Some r, w')
       ∧ GPIO.levels (gpio w') !! 27 = Some false
       ∧ GPIO.levels (gpio w') !! 22 = Some true).
Proof.
  destruct (direction_pins_follow_position sample_clock bcm_pin sw1 (boot []) 0 TURN (sw1_world []))
    as [(new & w' & Hrun & _ & He & Ht & Hs) (r & w'' & rest & Hrun' & _ & _ & Ht' & Hs')].
  - by vm_compute.
  - unfold distinct_pins. simpl.
    repeat (apply NoDup_cons; split; [set_unfold; lia |]).
    apply NoDup_nil_2.
  - reflexivity.
  - unfold idle. vm_compute. repeat split.
  - split.
    + exists new, w'. by repeat split.
    + exists r, w''. by repeat split.
Defined.

(** C3 (as amended). The handler has no fault path. Whichever of the
    three pin writes before the strobe fails, [PinIOError] leaves the
    handler at that write: the interrupt has been disarmed and the new
    position stored and logged, the writes before the failing one have
    taken effect, and nothing more is done; the error is not logged, the
    driver is not disabled and the button interrupt stays disarmed. When
    the enable write fails the levels are untouched. When it succeeds and
    the turn write fails, the enable line stays asserted. When the turn
    write succeeds and the straight write fails, the enable line stays
    asserted too, the turn pin not being the enable pin. *)
Theorem toggle_fault_propagates (clock : Clock) (self : nat) (cfg : L298NSwitchSettings)
    (p : Z) (channel : Z) (w : World) :
  heap w !! self = Some {| config := cfg; state := Some p |} →
  (GPIO.modes (gpio w) !! pin_enable cfg ≠ Some OUT →
   ∃ w', toggle clock self channel w = (Raise PinIOError, w')
     ∧ trace w' = (trace w ++ [ EvRemoveEventDetect (pin_button cfg);
                                EvLogDebug (name cfg) (Z.lxor p 1) ])%list
     ∧ heap w' !! self = Some {| config := cfg; state := Some (Z.lxor p 1) |}
     ∧ GPIO.levels (gpio w') = GPIO.levels (gpio w)
     ∧ GPIO.detects (gpio w') !! pin_button cfg = None)
  ∧ (GPIO.modes (gpio w) !! pin_enable cfg = Some OUT →
     GPIO.modes (gpio w) !! pin_turn cfg ≠ Some OUT →
     ∃ w', toggle clock self channel w = (Raise PinIOError, w')
       ∧ trace w' = (trace w ++ [ EvRemoveEventDetect (pin_button cfg);
                                  EvLogDebug (name cfg) (Z.lxor p 1);
                                  EvOutput (pin_enable cfg) true ])%list
       ∧ heap w' !! self = Some {| config := cfg; state := Some (Z.lxor p 1) |}
       ∧ GPIO.levels (gpio w') !! pin_enable cfg = Some true
       ∧ GPIO.detects (gpio w') !! pin_button cfg = None)
  ∧ (GPIO.modes (gpio w) !! pin_enable cfg = Some OUT →
     GPIO.modes (gpio w) !! pin_turn cfg = Some OUT →
     GPIO.modes (gpio w) !! pin_straight cfg ≠ Some OUT →
     ∃ w', toggle clock self channel w = (Raise PinIOError, w')
       ∧ trace w' = (trace w ++ [ EvRemoveEventDetect (pin_button cfg);
                                  EvLogDebug (name cfg) (Z.lxor p 1);
                                  EvOutput (pin_enable cfg) true;
                                  EvOutput (pin_turn cfg)
                                    (negb (truthy (Z.lxor p 1))) ])%list
       ∧ heap w' !! self = Some {| config := cfg; state := Some (Z.lxor p 1) |}
       ∧ (pin_turn cfg ≠ pin_enable cfg →
          GPIO.levels (gpio w') !! pin_enable cfg = Some true)
       ∧ GPIO.detects (gpio w') !! pin_button cfg = None).
Proof.
  intros Hh.
  pose proof (lookup_lt_Some _ _ _ Hh) as Hlt.
  split; [| split].
  - intros Hen. unfold toggle.
    run_with disable_button_interrupt_run.
    run_with get_state_run. simpl from_option.
    rewrite run_bind, run_ret. cbv beta iota.
    run_with set_state_run.
    rewrite run_bind. unfold enable_switch.
    run_with get_self_run.
    erewrite chip_raise by (apply output_raise; side).
    eexists. split; [reflexivity |]. world_simpl.
    split; [by rewrite <- app_assoc |].
    split; [by apply list_lookup_insert_eq |].
    split; [reflexivity | apply lookup_delete_eq].
  - intros Hen Htu. unfold toggle.
    run_with disable_button_interrupt_run.
    run_with get_state_run. simpl from_option.
    rewrite run_bind, run_ret. cbv beta iota.
    run_with set_state_run.
    run_with enable_switch_run.
    rewrite run_bind. unfold set_direction_pins.
    run_with get_self_run. run_with get_state_run. simpl from_option.
    rewrite run_bind.
    erewrite chip_raise by (apply output_raise; side).
    eexists. split; [reflexivity |]. world_simpl.
    split; [by rewrite <- !app_assoc |].
    split; [by apply list_lookup_insert_eq |].
    split; [apply lookup_insert_eq | apply lookup_delete_eq].
  - intros Hen Htu Hst. unfold toggle.
    run_with disable_button_interrupt_run.
    run_with get_state_run. simpl from_option.
    rewrite run_bind, run_ret. cbv beta iota.
    run_with set_state_run.
    run_with enable_switch_run.
    rewrite run_bind. unfold set_direction_pins.
    run_with get_self_run. run_with get_state_run. simpl from_option.
    rewrite run_bind.
    erewrite chip_ok by (apply output_ok; side). cbv beta iota. world_simpl.
    erewrite chip_raise by (apply output_raise; side).
    eexists. split; [reflexivity |]. world_simpl.
    split; [by rewrite <- !app_assoc |].
    split; [by apply list_lookup_insert_eq |].
    split; [| apply lookup_delete_eq].
    intros Hne. rewrite lookup_insert_ne by done. apply lookup_insert_eq.
Qed.

Lemma toggle_fault_propagates_witness :
  (∃ w', toggle sample_clock 0 23 two_switch_world = (Raise PinIOError, w')
     ∧ GPIO.levels (gpio w') !! 17 = Some true
     ∧ GPIO.detects (gpio w') !! 23 = None)
  ∧ (∃ w', toggle sample_clock 0 23 straight_taken_world = (Raise PinIOError, w')
       ∧ GPIO.levels (gpio w') !! 17 = Some true
       ∧ GPIO.detects (gpio w') !! 23 = None).
Proof.
  split.
  - destruct (toggle_fault_propagates sample_clock 0 sw1 0 23 two_switch_world)
      as (_ & H & _); [by vm_compute |].
    destruct H as (w' & Hrun & _ & _ & Hlv & Hd);
      [by vm_compute | vm_compute; discriminate |].
    exists w'. by repeat split.
  - destruct (toggle_fault_propagates sample_clock 0 sw1 0 23 straight_taken_world)
      as (_ & _ & H); [by vm_compute |].
    destruct H as (w' & Hrun & _ & _ & Hlv & Hd);
      [by vm_compute | by vm_compute | vm_compute; discriminate |].
    exists w'. split; [exact Hrun |]. split; [| exact Hd].
    apply Hlv. vm_compute. discriminate.
Defined.

(** C3 (as stated) fails once a second switch has taken the turn pin of
    [sw1] as its button: the next edge on the button of [sw1] makes the
    turn-pin write fail, the error leaves the handler, the enable line
    stays asserted and the interrupt stays disarmed; nothing follows the
    enable write in the trace. *)
Lemma toggle_fault_counterexample :
  (deliver sample_clock (23, Rise) two_switch_world).1 = Some (Raise PinIOError)
  ∧ GPIO.levels (gpio (deliver sample_clock (23, Rise) two_switch_world).2) !! 17 = Some true
  ∧ GPIO.detects (gpio (deliver sample_clock (23, Rise) two_switch_world).2) !! 23 = None
  ∧ trace (deliver sample_clock (23, Rise) two_switch_world).2
    = (trace two_switch_world
       ++ [EvRemoveEventDetect 23; EvLogDebug "sw1" 1; EvOutput 17 true])%list.
Proof. by vm_compute. Qed.

(** C2, evaluated on a config that asks for the falling edge: the
    constructor returns, the interrupt it armed selects the rising edge, a
    falling edge on the button is dropped and a rising edge toggles. *)
Theorem falling_edge_config_armed_rising :
  event_edge sw_falling = FALLING
  ∧ (L298NSwitch_init bcm_pin sw_falling (boot [])).1 = Ok 0%nat
  ∧ d_edge <$> GPIO.detects (gpio sw_falling_world) !! 23 = Some RISING
  ∧ deliver sample_clock (23, Fall) sw_falling_world = (None, sw_falling_world)
  ∧ (deliver sample_clock (23, Rise) sw_falling_world).1 = Some (Ok ()).
Proof. by vm_compute. Qed.

Lemma register_run valid_pin py_repr as_int as_str
    (r : gmap string yaml) (cfg : L298NSwitchSettings) (w : World) :
  model_validate py_repr as_int as_str r = Ok cfg →
  register valid_pin py_repr as_int as_str r w = L298NSwitch_init valid_pin cfg w.
Proof. intros H. unfold register. rewrite run_bind. unfold lift. by rewrite H. Qed.

(** C8 (as amended). Registration checks neither names nor pin claims.
    A record that validates to a config whose four pins the platform
    accepts is registered whatever names and pins the controllers
    registered before it hold, as long as no interrupt is armed on its
    button pin. When one is armed, construction fails with
    [InterruptAlreadyArmedError] at the arming step, after the pins of the
    config have been configured and written. *)
Theorem register_checks_only_button valid_pin py_repr as_int as_str
    (r : gmap string yaml) (cfg : L298NSwitchSettings) (w : World) :
  model_validate py_repr as_int as_str r = Ok cfg →
  valid_pins valid_pin cfg →
  (GPIO.detects (gpio w) !! pin_button cfg = None →
   ∃ w', register valid_pin py_repr as_int as_str r w = (Ok (length (heap w)), w')
     ∧ heap w' =
       (heap w ++ [{| config := cfg;
                      state := Some (SwitchPosition_value (initial_state cfg)) |}])%list
     ∧ GPIO.detects (gpio w') !! pin_button cfg = Some (armed (length (heap w)) cfg))
  ∧ (is_Some (GPIO.detects (gpio w) !! pin_button cfg) →
     ∃ w', register valid_pin py_repr as_int as_str r w
           = (Raise InterruptAlreadyArmedError, w')
       ∧ trace w' = (trace w ++ construct_events cfg)%list
       ∧ GPIO.detects (gpio w') = GPIO.detects (gpio w)).
Proof.
  intros Hv V. split; intros Hd.
  - exists (constructed cfg w).
    split; [rewrite (register_run _ _ _ _ _ _ _ Hv); by apply construct_run |].
    split; [reflexivity |].
    unfold constructed. world_simpl. apply lookup_insert_eq.
  - exists (half_constructed cfg w).
    split; [rewrite (register_run _ _ _ _ _ _ _ Hv);
            by apply construct_already_armed |].
    by split.
Qed.

Lemma register_checks_only_button_witness :
  ∃ w', register bcm_pin plain_repr int_only str_only sw1_again (sw1_world [])
        = (Ok 1%nat, w')
    ∧ name <$> (config <$> heap w') = ["sw1"; "sw1"]
    ∧ pin_enable <$> (config <$> heap w') = [17; 17].
Proof.
  destruct (register_checks_only_button bcm_pin plain_repr int_only str_only
              sw1_again
              {| initial_state := TURN; debounce_ms := 200; event_edge := RISING;
                 strobe_ms := 500; name := "sw1"; pin_enable := 17;
                 pin_turn := 27; pin_straight := 22; pin_button := 24 |}
              (sw1_world [])) as [H _].
  - by vm_compute.
  - by vm_compute.
  - destruct H as (w' & Hrun & Hheap & _); [by vm_compute |].
    exists w'. split; [exact Hrun |]. rewrite Hheap. by vm_compute.
Defined.

(** C8 (as stated) fails: a second record with the name and the three
    output pins of the first registers without error, and both
    controllers are kept. *)
Lemma register_duplicates_counterexample :
  sw1_again !! "name" = sw1_record !! "name"
  ∧ sw1_again !! "pin_enable" = sw1_record !! "pin_enable"
  ∧ (register_all bcm_pin plain_repr int_only str_only
       [sw1_record; sw1_again] [] (boot [])).1 = Ok [0; 1]%nat.
Proof. by vm_compute. Qed.

(** ** Validation *)

Lemma append_assoc (a b c : string) : ((a ++ b) ++ c = a ++ (b ++ c))%string.
Proof.
  induction a as [| x a IH]; [done |].
  change (String x ((a ++ b) ++ c) = String x (a ++ (b ++ c)))%string.
  by rewrite IH.
Qed.

Section ValidationFacts.

Variable py_repr : yaml → string.
Variable as_int : yaml → option Z.
Variable as_str : yaml → option string.

Lemma SwitchPosition_getitem_None (v : yaml) :
  (∀ p, v ≠ YStr (SwitchPosition_name p)) → SwitchPosition_getitem v = None.
Proof.
  intros H. destruct v as [s | z]; [| done].
  unfold SwitchPosition_getitem, enum_getitem, SwitchPosition_members.
  cbn [List.find SwitchPosition_name].
  destruct (String.eqb_spec "TURN" s) as [<- | _]; [by destruct (H TURN) |].
  destruct (String.eqb_spec "STRAIGHT" s) as [<- | _]; [by destruct (H STRAIGHT) |].
  done.
Qed.

Lemma EventEdge_getitem_None (v : yaml) :
  (∀ e, v ≠ YStr (EventEdge_name e)) → EventEdge_getitem v = None.
Proof.
  intros H. destruct v as [s | z]; [| done].
  unfold EventEdge_getitem, enum_getitem, EventEdge_members.
  cbn [List.find EventEdge_name].
  destruct (String.eqb_spec "FALLING" s) as [<- | _]; [by destruct (H FALLING) |].
  destruct (String.eqb_spec "RISING" s) as [<- | _]; [by destruct (H RISING) |].
  destruct (String.eqb_spec "BOTH" s) as [<- | _]; [by destruct (H BOTH) |].
  done.
Qed.

(** A failing field makes the whole validation fail, with all the
    failures reported. *)
Lemma model_validate_raise (r : gmap string yaml) :
  validation_errors py_repr as_int as_str r ≠ [] →
  model_validate py_repr as_int as_str r
  = Raise (ValidationError (validation_errors py_repr as_int as_str r)).
Proof.
  unfold model_validate, validation_errors.
  destruct (field_validated _ _ (r !! "initial_state"));
  destruct (field_default _ _ (r !! "debounce_ms"));
  destruct (field_validated _ _ (r !! "event_edge"));
  destruct (field_default _ _ (r !! "strobe_ms"));
  destruct (field_required _ (r !! "name"));
  destruct (field_required _ (r !! "pin_enable"));
  destruct (field_required _ (r !! "pin_turn"));
  destruct (field_required _ (r !! "pin_straight"));
  destruct (field_required _ (r !! "pin_button"));
  simpl; intros H; congruence.
Qed.

Lemma model_validate_field_error (r : gmap string yaml) (field : string)
    (e : FieldError) :
  (field, e) ∈ validation_errors py_repr as_int as_str r →
  model_validate py_repr as_int as_str r
  = Raise (ValidationError (validation_errors py_repr as_int as_str r)).
Proof.
  intros H. apply model_validate_raise. intros E. rewrite E in H.
  by apply elem_of_nil in H.
Qed.

Lemma register_all_invalid valid_pin (r : gmap string yaml) (errs : list (string * FieldError))
    (rest : list (gmap string yaml)) (switches : list nat) (w : World) :
  model_validate py_repr as_int as_str r = Raise (ValidationError errs) →
  register_all valid_pin py_repr as_int as_str (r :: rest) switches w
  = (Raise (ValidationError errs), w).
Proof.
  intros H. cbn [register_all]. rewrite run_bind. unfold register.
  rewrite run_bind. unfold lift. by rewrite H.
Qed.

End ValidationFacts.

(** C9. A record whose [initial_state] is not the name of a
    [SwitchPosition] member, or whose [event_edge] is not the name of an
    [EventEdge] member, does not validate: [model_validate] raises a
    [ValidationError] with an entry for that field whose message ends
    with the list of the accepted names, and the registration loop stops
    at that record without constructing a switch for it. *)
Theorem invalid_enum_token_rejected valid_pin py_repr as_int as_str
    (r : gmap string yaml) (v : yaml)
    (rest : list (gmap string yaml)) (switches : list nat) (w : World) :
  (r !! "initial_state" = Some v → (∀ p, v ≠ YStr (SwitchPosition_name p)) →
   ∃ errs pre,
     model_validate py_repr as_int as_str r = Raise (ValidationError errs)
     ∧ ("initial_state",
        ValueErrorIn (pre ++ py_list_str py_repr ["TURN"; "STRAIGHT"])) ∈ errs
     ∧ register_all valid_pin py_repr as_int as_str (r :: rest) switches w
       = (Raise (ValidationError errs), w))
  ∧ (r !! "event_edge" = Some v → (∀ e, v ≠ YStr (EventEdge_name e)) →
     ∃ errs pre,
       model_validate py_repr as_int as_str r = Raise (ValidationError errs)
       ∧ ("event_edge",
          ValueErrorIn (pre ++ py_list_str py_repr ["FALLING"; "RISING"; "BOTH"])) ∈ errs
       ∧ register_all valid_pin py_repr as_int as_str (r :: rest) switches w
         = (Raise (ValidationError errs), w)).
Proof.
  split; intros Hl Hv.
  - assert (("initial_state",
             ValueErrorIn (("Error validating switch position " ++ py_repr v
                            ++ ". Valid switch positions are: ")
                           ++ py_list_str py_repr ["TURN"; "STRAIGHT"]))
            ∈ validation_errors py_repr as_int as_str r) as Hin.
    { unfold validation_errors. rewrite Hl. unfold field_validated at 1.
      unfold validate_switch_position.
      rewrite (SwitchPosition_getitem_None v Hv). cbn [field_errors].
      apply elem_of_app. left. apply list_elem_of_singleton.
      by rewrite !append_assoc. }
    pose proof (model_validate_field_error _ _ _ _ _ _ Hin) as Hr.
    eexists _, _. split; [exact Hr |]. split; [exact Hin |].
    by apply register_all_invalid.
  - assert (("event_edge",
             ValueErrorIn (("Error validating event edge " ++ py_repr v
                            ++ ". Valid event edges are: ")
                           ++ py_list_str py_repr ["FALLING"; "RISING"; "BOTH"]))
            ∈ validation_errors py_repr as_int as_str r) as Hin.
    { unfold validation_errors. rewrite Hl. unfold field_validated at 2.
      unfold validate_event_edge.
      rewrite (EventEdge_getitem_None v Hv). cbn [field_errors].
      apply elem_of_app. right. apply elem_of_app. right.
      apply elem_of_app. left. apply list_elem_of_singleton.
      by rewrite !append_assoc. }
    pose proof (model_validate_field_error _ _ _ _ _ _ Hin) as Hr.
    eexists _, _. split; [exact Hr |]. split; [exact Hin |].
    by apply register_all_invalid.
Qed.

Lemma invalid_enum_token_rejected_witness :
  ∃ errs pre,
    model_validate plain_repr int_only str_only bad_position
    = Raise (ValidationError errs)
    ∧ ("initial_state", ValueErrorIn (pre ++ "['TURN', 'STRAIGHT']")) ∈ errs
    ∧ register_all bcm_pin plain_repr int_only str_only
        [bad_position; sw1_record] [] (boot [])
      = (Raise (ValidationError errs), boot []).
Proof.
  destruct (invalid_enum_token_rejected bcm_pin plain_repr int_only str_only
              bad_position (YStr "LEFT") [sw1_record] [] (boot [])) as [H _].
  apply H.
  - by vm_compute.
  - intros []; discriminate.
Defined.

(** C10. A record that supplies [name] and the four pins with values
    pydantic accepts validates, whichever of [initial_state],
    [debounce_ms], [event_edge] and [strobe_ms] it omits (those it gives
    being acceptable); an omitted one takes its default: TURN, 200, RISING,
    500. A record that lacks [name] or one of the four pins does not
    validate, that field being reported as required. *)
Theorem defaults_when_omitted py_repr as_int as_str
    (r : gmap string yaml) (vn ve vt vs vb : yaml)
    (n : string) (pe pt ps pb : Z) :
  r !! "name" = Some vn → as_str vn = Some n →
  r !! "pin_enable" = Some ve → as_int ve = Some pe →
  r !! "pin_turn" = Some vt → as_int vt = Some pt →
  r !! "pin_straight" = Some vs → as_int vs = Some ps →
  r !! "pin_button" = Some vb → as_int vb = Some pb →
  (∀ v, r !! "initial_state" = Some v → is_Some (SwitchPosition_getitem v)) →
  (∀ v, r !! "debounce_ms" = Some v → is_Some (as_int v)) →
  (∀ v, r !! "event_edge" = Some v → is_Some (EventEdge_getitem v)) →
  (∀ v, r !! "strobe_ms" = Some v → is_Some (as_int v)) →
  (∃ cfg,
     model_validate py_repr as_int as_str r = Ok cfg
     ∧ name cfg = n ∧ pin_enable cfg = pe ∧ pin_turn cfg = pt
     ∧ pin_straight cfg = ps ∧ pin_button cfg = pb
     ∧ (r !! "initial_state" = None → initial_state cfg = TURN)
     ∧ (r !! "debounce_ms" = None → debounce_ms cfg = 200)
     ∧ (r !! "event_edge" = None → event_edge cfg = RISING)
     ∧ (r !! "strobe_ms" = None → strobe_ms cfg = 500))
  ∧ (∀ (r' : gmap string yaml) (field : string),
       field ∈ ["name"; "pin_enable"; "pin_turn"; "pin_straight"; "pin_button"] →
       r' !! field = None →
       ∃ errs,
         model_validate py_repr as_int as_str r' = Raise (ValidationError errs)
         ∧ (field, FieldRequired) ∈ errs).
Proof.
  intros Hn Hn' He He' Ht Ht' Hs Hs' Hb Hb' Hi Hd Hee Hst. split.
  - unfold model_validate.
    rewrite Hn, He, Ht, Hs, Hb. cbn [field_required].
    rewrite Hn', He', Ht', Hs', Hb'.
    unfold field_validated, field_default,
      validate_switch_position, validate_event_edge.
    destruct (r !! "initial_state") as [vi |];
      [destruct (Hi vi eq_refl) as [i ->] |];
    (destruct (r !! "debounce_ms") as [vd |];
      [destruct (Hd vd eq_refl) as [d ->] |]);
    (destruct (r !! "event_edge") as [vee |];
      [destruct (Hee vee eq_refl) as [e ->] |]);
    (destruct (r !! "strobe_ms") as [vst |];
      [destruct (Hst vst eq_refl) as [s ->] |]);
    eexists; (split; [reflexivity |]); cbn; repeat split; done.
  - intros r' field Hf Hl.
    assert ((field, FieldRequired) ∈ validation_errors py_repr as_int as_str r') as Hin.
    { unfold validation_errors.
      repeat (apply elem_of_cons in Hf as [-> | Hf];
              [rewrite Hl; cbn [field_required field_errors];
               rewrite !elem_of_app, !list_elem_of_singleton; tauto |]).
      by apply elem_of_nil in Hf. }
    eexists. split; [by eapply model_validate_field_error | exact Hin].
Qed.

Lemma defaults_when_omitted_witness :
  ∃ cfg,
    model_validate plain_repr int_only str_only sw1_minimal = Ok cfg
    ∧ initial_state cfg = TURN ∧ debounce_ms cfg = 200
    ∧ event_edge cfg = RISING ∧ strobe_ms cfg = 500.
Proof.
  destruct (defaults_when_omitted plain_repr int_only str_only sw1_minimal
              (YStr "sw1") (YInt 17) (YInt 27) (YInt 22) (YInt 23)
              "sw1" 17 27 22 23) as [(cfg & Hrun & _ & _ & _ & _ & _ & Hi & Hd & He & Hs) _];
    try (by vm_compute); try (intros v; vm_compute; discriminate).
  exists cfg. split; [exact Hrun |].
  split; [by apply Hi |]. split; [by apply Hd |].
  split; [by apply He | by apply Hs].
Defined.

(** ** Further properties of the toggle *)

Lemma toggled_detects (self : nat) (cfg : L298NSwitchSettings) (p : Z) (w : World) :
  idle self cfg p w →
  GPIO.detects (gpio (toggled self cfg p w)) = GPIO.detects (gpio w).
Proof.
  intros (_ & _ & _ & _ & _ & Hd). unfold toggled. world_simpl.
  rewrite insert_delete_eq. by apply insert_id.
Qed.

Lemma toggled_frame (self : nat) (cfg : L298NSwitchSettings) (p : Z) (w : World) :
  idle self cfg p w →
  GPIO.modes (gpio (toggled self cfg p w)) = GPIO.modes (gpio w)
  ∧ GPIO.detects (gpio (toggled self cfg p w)) = GPIO.detects (gpio w)
  ∧ (∀ pin, pin ∉ output_pins cfg →
       GPIO.levels (gpio (toggled self cfg p w)) !! pin = GPIO.levels (gpio w) !! pin)
  ∧ length (heap (toggled self cfg p w)) = length (heap w)
  ∧ (∀ other, other ≠ self → heap (toggled self cfg p w) !! other = heap w !! other).
Proof.
  intros Hi. split; [reflexivity |].
  split; [by apply toggled_detects |].
  unfold toggled. world_simpl. split; [| split].
  - intros pin Hp. unfold output_pins in Hp.
    rewrite !lookup_insert. repeat case_decide; try done; set_solver.
  - apply length_insert.
  - intros other Ho. by apply list_lookup_insert_ne.
Qed.

(** With [strobe_ms] between 0 and the longest sleep the platform takes,
    a toggle stays within its switch: it changes no pin mode and no
    armed interrupt, no level outside its own enable, turn and straight
    pins, and no other switch object. *)
Theorem toggle_frame (clock : Clock) (self : nat) (cfg : L298NSwitchSettings)
    (P : SwitchPosition) (w : World) :
  idle self cfg (SwitchPosition_value P) w → 0 ≤ strobe_ms cfg ≤ sleep_max_ms clock →
  ∃ w', deliver clock (pin_button cfg, Rise) w = (Some (Ok ()), w')
    ∧ GPIO.modes (gpio w') = GPIO.modes (gpio w)
    ∧ GPIO.detects (gpio w') = GPIO.detects (gpio w)
    ∧ (∀ pin, pin ∉ output_pins cfg →
         GPIO.levels (gpio w') !! pin = GPIO.levels (gpio w) !! pin)
    ∧ length (heap w') = length (heap w)
    ∧ (∀ other, other ≠ self → heap w' !! other = heap w !! other).
Proof.
  intros Hi Hs. exists (toggled self cfg (SwitchPosition_value P) w).
  split; [by apply deliver_idle | by apply toggled_frame].
Qed.

Lemma toggle_frame_witness :
  ∃ w', deliver sample_clock (23, Rise) (sw1_world []) = (Some (Ok ()), w')
    ∧ GPIO.modes (gpio w') = GPIO.modes (gpio (sw1_world []))
    ∧ GPIO.detects (gpio w') = GPIO.detects (gpio (sw1_world [])).
Proof.
  destruct (toggle_frame sample_clock 0 sw1 TURN (sw1_world []))
    as (w' & Hrun & Hm & Hd & _).
  - unfold idle. vm_compute. repeat split.
  - split; vm_compute; discriminate.
  - by exists w'.
Defined.



(** ** Sequences of transitions on the button *)

Lemma button_sequence (clock : Clock) (self : nat) (cfg : L298NSwitchSettings)
    (ts : list Transition) (P : SwitchPosition) (w : World) :
  idle self cfg (SwitchPosition_value P) w → 0 ≤ strobe_ms cfg ≤ sleep_max_ms clock →
  (deliver_all clock (on_button cfg ts) w).1 = button_outcome <$> ts
  ∧ idle self cfg
      (SwitchPosition_value (if Nat.even (rises ts) then P else flip P))
      (deliver_all clock (on_button cfg ts) w).2
  ∧ trace (deliver_all clock (on_button cfg ts) w).2
    = (trace w
       ++ concat ((λ Q, toggle_events cfg (SwitchPosition_value Q))
                  <$> toggled_positions P (rises ts)))%list.
Proof.
  intros Hi Hs. revert P w Hi.
  induction ts as [| t ts IH]; intros P w Hi.
  - cbn. by rewrite app_nil_r.
  - unfold on_button. rewrite fmap_cons. fold (on_button cfg ts).
    cbn [deliver_all]. destruct t.
    + rewrite (deliver_idle clock self cfg _ w Hi Hs).
      pose proof (idle_toggled _ _ _ _ Hi) as Hi'. rewrite lxor_flip in Hi'.
      destruct (IH (flip P) _ Hi') as (Ho & Hidle & Htr).
      destruct (deliver_all _ _ (toggled _ _ _ w)) as [rs w2]. cbn [fst snd] in *.
      assert (rises (Rise :: ts) = S (rises ts)) as -> by reflexivity.
      split; [by rewrite Ho |]. split.
      * rewrite Nat.even_succ, <- Nat.negb_even.
        destruct (Nat.even (rises ts)), P; exact Hidle.
      * rewrite Htr. unfold toggled at 1. world_simpl. rewrite lxor_flip.
        cbn [toggled_positions fmap list_fmap concat].
        by rewrite <- !app_assoc.
    + rewrite (deliver_idle_fall clock self cfg _ w Hi).
      destruct (IH P w Hi) as (Ho & Hidle & Htr).
      destruct (deliver_all _ _ w) as [rs w2]. cbn [fst snd] in *.
      assert (rises (Fall :: ts) = rises ts) as -> by reflexivity.
      split; [by rewrite Ho |]. by split.
Qed.

(** With [strobe_ms] between 0 and the longest sleep the platform takes:
    of the transitions on the button of an idle switch only the rising
    ones are handled, each to completion; the falling ones are dropped.
    The position ends at [P] when the number of rising ones is even and
    at [flip P] when it is odd, and the switch is idle again. *)
Theorem button_transitions_parity (clock : Clock) (self : nat) (cfg : L298NSwitchSettings)
    (ts : list Transition) (P : SwitchPosition) (w : World) :
  idle self cfg (SwitchPosition_value P) w → 0 ≤ strobe_ms cfg ≤ sleep_max_ms clock →
  (deliver_all clock (on_button cfg ts) w).1 = button_outcome <$> ts
  ∧ idle self cfg
      (SwitchPosition_value (if Nat.even (rises ts) then P else flip P))
      (deliver_all clock (on_button cfg ts) w).2.
Proof.
  intros Hi Hs. destruct (button_sequence clock self cfg ts P w Hi Hs) as (Ho & Hidle & _).
  by split.
Qed.

Lemma button_transitions_parity_witness :
  (deliver_all sample_clock (on_button sw1 [Fall; Rise; Fall; Rise; Rise]) (sw1_world [])).1
    = [None; Some (Ok ()); None; Some (Ok ()); Some (Ok ())]
  ∧ idle 0 sw1 1 (deliver_all sample_clock (on_button sw1 [Fall; Rise; Fall; Rise; Rise]) (sw1_world [])).2.
Proof.
  apply (button_transitions_parity sample_clock 0 sw1 [Fall; Rise; Fall; Rise; Rise] TURN (sw1_world [])).
  - unfold idle. vm_compute. repeat split.
  - split; vm_compute; discriminate.
Defined.

(** With [strobe_ms] between 0 and the longest sleep the platform takes,
    what a sequence of button transitions adds to the trace is the
    concatenation of one complete toggle sequence per rising transition,
    for the positions reached in turn; nothing else is done to the
    outside. *)
Theorem button_transitions_trace (clock : Clock) (self : nat) (cfg : L298NSwitchSettings)
    (ts : list Transition) (P : SwitchPosition) (w : World) :
  idle self cfg (SwitchPosition_value P) w → 0 ≤ strobe_ms cfg ≤ sleep_max_ms clock →
  trace (deliver_all clock (on_button cfg ts) w).2
  = (trace w
     ++ concat ((λ Q, toggle_events cfg (SwitchPosition_value Q))
                <$> toggled_positions P (rises ts)))%list.
Proof.
  intros Hi Hs. by destruct (button_sequence clock self cfg ts P w Hi Hs) as (_ & _ & Htr).
Qed.

Lemma button_transitions_trace_witness :
  trace (deliver_all sample_clock (on_button sw1 [Rise; Fall; Rise]) (sw1_world [])).2
  = (trace (sw1_world []) ++ toggle_events sw1 1 ++ toggle_events sw1 0)%list.
Proof.
  apply (button_transitions_trace sample_clock 0 sw1 [Rise; Fall; Rise] TURN (sw1_world [])).
  - unfold idle. vm_compute. repeat split.
  - split; vm_compute; discriminate.
Defined.

(** ** Pins at rest *)

Lemma distinct_output_pins (cfg : L298NSwitchSettings) :
  distinct_pins cfg →
  pin_enable cfg ≠ pin_turn cfg ∧ pin_enable cfg ≠ pin_straight cfg
  ∧ pin_turn cfg ≠ pin_straight cfg.
Proof.
  unfold distinct_pins. intros D.
  apply NoDup_cons in D as [D1 D]. apply NoDup_cons in D as [D2 _].
  set_unfold. naive_solver.
Qed.

Lemma settled_constructed (cfg : L298NSwitchSettings) (w : World) :
  distinct_pins cfg →
  settled (length (heap w)) cfg (initial_state cfg) (constructed cfg w).
Proof.
  intros D. destruct (distinct_output_pins cfg D) as (Het & Hes & Hts).
  split; [by apply idle_constructed |].
  unfold constructed, pins_initialised. world_simpl.
  split; rewrite !lookup_insert; repeat case_decide; congruence.
Qed.

Lemma settled_toggled (self : nat) (cfg : L298NSwitchSettings)
    (P : SwitchPosition) (w : World) :
  distinct_pins cfg →
  idle self cfg (SwitchPosition_value P) w →
  settled self cfg (flip P) (toggled self cfg (SwitchPosition_value P) w).
Proof.
  intros D Hi. destruct (distinct_output_pins cfg D) as (Het & Hes & Hts).
  split; [rewrite <- lxor_flip; by apply idle_toggled |].
  unfold toggled. world_simpl. rewrite lxor_flip.
  split; rewrite !lookup_insert; repeat case_decide; congruence.
Qed.

(** From construction on, whatever transitions reach the button, a
    switch with valid distinct pins and a [strobe_ms] between 0 and the
    longest sleep the platform takes is at rest on its current position:
    enable line low, turn pin NOT position, straight pin position,
    interrupt armed; and the position is the initial one flipped once per
    rising transition. *)
Theorem pins_follow_position_at_rest (clock : Clock) (valid_pin : Z → bool)
    (cfg : L298NSwitchSettings) (ts : list Transition) (w : World) :
  valid_pins valid_pin cfg → distinct_pins cfg →
  GPIO.detects (gpio w) !! pin_button cfg = None → 0 ≤ strobe_ms cfg ≤ sleep_max_ms clock →
  ∃ self w0,
    L298NSwitch_init valid_pin cfg w = (Ok self, w0)
    ∧ settled self cfg
        (if Nat.even (rises ts) then initial_state cfg else flip (initial_state cfg))
        (deliver_all clock (on_button cfg ts) w0).2.
Proof.
  intros V D Hd Hs. exists (length (heap w)), (constructed cfg w).
  split; [by apply construct_run |].
  pose proof (settled_constructed cfg w D) as Hset.
  generalize dependent (constructed cfg w). generalize (length (heap w)).
  generalize (initial_state cfg).
  induction ts as [| t ts IH]; intros P self w0 Hset; [exact Hset |].
  unfold on_button. rewrite fmap_cons. fold (on_button cfg ts).
  cbn [deliver_all]. destruct Hset as [Hi Hlv]. destruct t.
  - rewrite (deliver_idle clock self cfg _ w0 Hi Hs).
    specialize (IH (flip P) self _ (settled_toggled self cfg P w0 D Hi)).
    destruct (deliver_all _ _ (toggled _ _ _ w0)) as [rs w2]. cbn [fst snd] in *.
    assert (rises (Rise :: ts) = S (rises ts)) as -> by reflexivity.
    rewrite Nat.even_succ, <- Nat.negb_even.
    destruct (Nat.even (rises ts)), P; exact IH.
  - rewrite (deliver_idle_fall clock self cfg _ w0 Hi).
    specialize (IH P self w0 (conj Hi Hlv)).
    destruct (deliver_all _ _ w0) as [rs w2]. cbn [fst snd] in *.
    exact IH.
Qed.

Lemma pins_follow_position_at_rest_witness :
  ∃ self w0,
    L298NSwitch_init bcm_pin sw1 (boot []) = (Ok self, w0)
    ∧ settled self sw1 STRAIGHT (deliver_all sample_clock (on_button sw1 [Rise; Fall; Rise; Rise]) w0).2.
Proof.
  apply (pins_follow_position_at_rest sample_clock bcm_pin sw1 [Rise; Fall; Rise; Rise] (boot [])).
  - by vm_compute.
  - unfold distinct_pins. simpl.
    repeat (apply NoDup_cons; split; [set_unfold; lia |]).
    apply NoDup_nil_2.
  - reflexivity.
  - split; vm_compute; discriminate.
Defined.



(** Switches on separate output pins do not disturb each other: while
    one toggles, its [strobe_ms] between 0 and the longest sleep the
    platform takes, another idle switch stays idle on its position and the
    levels of its three output pins do not change. *)
Theorem toggle_leaves_other_switch (clock : Clock) (a b : nat) (cfg_a cfg_b : L298NSwitchSettings)
    (P : SwitchPosition) (q : Z) (w : World) :
  idle a cfg_a (SwitchPosition_value P) w → idle b cfg_b q w → a ≠ b →
  (∀ pin, pin ∈ output_pins cfg_a → pin ∉ output_pins cfg_b) →
  0 ≤ strobe_ms cfg_a ≤ sleep_max_ms clock →
  ∃ w', deliver clock (pin_button cfg_a, Rise) w = (Some (Ok ()), w')
    ∧ idle b cfg_b q w'
    ∧ (∀ pin, pin ∈ output_pins cfg_b →
         GPIO.levels (gpio w') !! pin = GPIO.levels (gpio w) !! pin).
Proof.
  intros Ha Hb Hab Hsep Hs.
  destruct (toggled_frame a cfg_a _ w Ha) as (Hm & Hd & Hl & _ & Hheap).
  exists (toggled a cfg_a (SwitchPosition_value P) w).
  split; [by apply deliver_idle |].
  set (w' := toggled a cfg_a (SwitchPosition_value P) w) in *.
  assert (∀ pin, pin ∈ output_pins cfg_b →
            GPIO.levels (gpio w') !! pin = GPIO.levels (gpio w) !! pin) as Hkeep.
  { intros pin Hp. apply Hl. intros Hpa. by apply (Hsep pin Hpa). }
  split; [| exact Hkeep].
  destruct Hb as (Hh & Hen & Htu & Hst & Hlv & Hdb).
  unfold idle. rewrite Hm, Hd, (Hheap b) by done.
  rewrite (Hkeep (pin_enable cfg_b)) by (unfold output_pins; apply elem_of_cons; by left).
  done.
Qed.

Lemma toggle_leaves_other_switch_witness :
  ∃ w', deliver sample_clock (23, Rise) sw1_sw2_world = (Some (Ok ()), w')
    ∧ idle 1 sw2 1 w'
    ∧ GPIO.levels (gpio w') !! 13 = GPIO.levels (gpio sw1_sw2_world) !! 13.
Proof.
  destruct (toggle_leaves_other_switch sample_clock 0 1 sw1 sw2 TURN 1 sw1_sw2_world)
    as (w' & Hrun & Hidle & Hkeep).
  - unfold idle. vm_compute. repeat split.
  - unfold idle. vm_compute. repeat split.
  - lia.
  - intros pin. unfold output_pins. simpl. set_unfold. lia.
  - split; vm_compute; discriminate.
  - exists w'. split; [exact Hrun |]. split; [exact Hidle |].
    apply Hkeep. unfold output_pins. simpl. set_unfold. lia.
Defined.

(** ** The constructor on pins the platform rejects *)

Lemma setup_raise valid_pin (pin : Z) (m : PinMode) (g : GPIO.t) :
  valid_pin pin = false → GPIO.setup valid_pin pin m g = Raise PinConfigurationError.
Proof. intros H. unfold GPIO.setup. by rewrite H. Qed.

Ltac no_output :=
  let Hin := fresh "Hin" in
  intros ? ? Hin;
  repeat (apply elem_of_cons in Hin as [Hin | Hin]; [discriminate |]);
  by apply elem_of_nil in Hin.

Lemma construct_invalid valid_pin (cfg : L298NSwitchSettings) (w : World) :
  ¬ valid_pins valid_pin cfg →
  ∃ w', L298NSwitch_init valid_pin cfg w = (Raise PinConfigurationError, w')
    ∧ GPIO.levels (gpio w') = GPIO.levels (gpio w)
    ∧ GPIO.detects (gpio w') = GPIO.detects (gpio w)
    ∧ (∀ pin v, EvOutput pin v ∉ drop (length (trace w)) (trace w')).
Proof.
  intros V. unfold L298NSwitch_init.
  rewrite run_bind. unfold alloc at 1. cbv beta iota.
  rewrite run_bind.
  erewrite set_state_run by (world_simpl; apply list_lookup_middle; reflexivity).
  cbv beta iota. world_simpl. rewrite alloc_set_state_heap.
  rewrite run_bind. unfold init_pins.
  rewrite run_bind.
  erewrite get_self_run by (world_simpl; apply list_lookup_middle; reflexivity).
  cbv beta iota. world_simpl.
  assert (∀ (evs : list Event),
            (∀ pin v, EvOutput pin v ∉ evs) →
            ∀ pin v, EvOutput pin v ∉ drop (length (trace w)) (trace w ++ evs)) as Hdrop.
  { intros evs H pin v. rewrite drop_app_length. apply H. }
  destruct (valid_pin (pin_button cfg)) eqn:Vb.
  2:{ rewrite run_bind. erewrite chip_raise by (by apply setup_raise).
      eexists. split; [reflexivity |]. world_simpl. do 2 (split; [done |]).
      apply Hdrop. no_output. }
  rewrite run_bind. erewrite chip_ok by (by apply setup_ok).
  cbv beta iota. world_simpl.
  destruct (valid_pin (pin_enable cfg)) eqn:Ve.
  2:{ rewrite run_bind. erewrite chip_raise by (by apply setup_raise).
      eexists. split; [reflexivity |]. world_simpl. do 2 (split; [done |]).
      rewrite <- app_assoc. apply Hdrop. no_output. }
  rewrite run_bind. erewrite chip_ok by (by apply setup_ok).
  cbv beta iota. world_simpl.
  destruct (valid_pin (pin_straight cfg)) eqn:Vs.
  2:{ rewrite run_bind. erewrite chip_raise by (by apply setup_raise).
      eexists. split; [reflexivity |]. world_simpl. do 2 (split; [done |]).
      rewrite <- !app_assoc. apply Hdrop. no_output. }
  rewrite run_bind. erewrite chip_ok by (by apply setup_ok).
  cbv beta iota. world_simpl.
  destruct (valid_pin (pin_turn cfg)) eqn:Vt.
  2:{ rewrite run_bind. erewrite chip_raise by (by apply setup_raise).
      eexists. split; [reflexivity |]. world_simpl. do 2 (split; [done |]).
      rewrite <- !app_assoc. apply Hdrop. no_output. }
  destruct V. by repeat split.
Qed.

(** When the platform rejects one of the four pins of a config, the
    constructor raises [PinConfigurationError] out of [__init_pins]
    before it has written a level to any pin and before it has armed an
    interrupt. *)
Theorem construct_invalid_pin valid_pin (cfg : L298NSwitchSettings) (w : World) :
  ¬ valid_pins valid_pin cfg →
  ∃ w', L298NSwitch_init valid_pin cfg w = (Raise PinConfigurationError, w')
    ∧ GPIO.levels (gpio w') = GPIO.levels (gpio w)
    ∧ GPIO.detects (gpio w') = GPIO.detects (gpio w)
    ∧ (∀ pin v, EvOutput pin v ∉ drop (length (trace w)) (trace w')).
Proof. apply construct_invalid. Qed.

Lemma construct_invalid_pin_witness :
  ∃ w', L298NSwitch_init bcm_pin sw_bad_pin (boot []) = (Raise PinConfigurationError, w')
    ∧ GPIO.levels (gpio w') = ∅
    ∧ GPIO.detects (gpio w') = ∅.
Proof.
  destruct (construct_invalid_pin bcm_pin sw_bad_pin (boot []))
    as (w' & Hrun & Hl & Hd & _).
  - unfold valid_pins. vm_compute. intros (_ & _ & H & _). discriminate H.
  - by exists w'.
Defined.

Lemma valid_pins_dec valid_pin (cfg : L298NSwitchSettings) :
  valid_pins valid_pin cfg ∨ ¬ valid_pins valid_pin cfg.
Proof.
  unfold valid_pins.
  destruct (valid_pin (pin_enable cfg)), (valid_pin (pin_turn cfg)),
    (valid_pin (pin_straight cfg)), (valid_pin (pin_button cfg));
    first [left; by repeat split | right; intros (? & ? & ? & ?); discriminate].
Qed.

(** ** The registration loop *)

Lemma register_all_app_run valid_pin py_repr as_int as_str
    (l1 l2 : list (gmap string yaml)) (switches : list nat) (w : World) :
  register_all valid_pin py_repr as_int as_str (l1 ++ l2) switches w
  = match register_all valid_pin py_repr as_int as_str l1 switches w with
    | (Ok switches', w') =>
        register_all valid_pin py_repr as_int as_str l2 switches' w'
    | (Raise e, w') => (Raise e, w')
    end.
Proof.
  revert switches w. induction l1 as [| r l1 IH]; intros switches w; [done |].
  cbn [app register_all]. rewrite !run_bind.
  destruct (register valid_pin py_repr as_int as_str r w) as [[self | e] w1];
    [apply IH | reflexivity].
Qed.

Lemma construct_ok_inv valid_pin (cfg : L298NSwitchSettings) (w : World)
    (self : nat) (w' : World) :
  L298NSwitch_init valid_pin cfg w = (Ok self, w') →
  self = length (heap w) ∧ w' = constructed cfg w.
Proof.
  intros Hrun.
  destruct (valid_pins_dec valid_pin cfg) as [V | V].
  - destruct (GPIO.detects (gpio w) !! pin_button cfg) as [d |] eqn:Hd.
    + rewrite (construct_already_armed valid_pin cfg w V) in Hrun by (by rewrite Hd).
      discriminate.
    + rewrite (construct_run valid_pin cfg w V Hd) in Hrun. by injection Hrun.
  - destruct (construct_invalid valid_pin cfg w V) as (w'' & Hr & _).
    rewrite Hr in Hrun. discriminate.
Qed.

(** When the loop completes, it has appended to the list one switch per
    record, in the order of the records, and each is a new object. *)
Theorem register_all_ids valid_pin py_repr as_int as_str
    (cfg_data : list (gmap string yaml)) (switches switches' : list nat)
    (w w' : World) :
  register_all valid_pin py_repr as_int as_str cfg_data switches w
  = (Ok switches', w') →
  switches' = (switches ++ seq (length (heap w)) (length cfg_data))%list
  ∧ length (heap w') = (length (heap w) + length cfg_data)%nat.
Proof.
  revert switches w. induction cfg_data as [| r rs IH]; intros switches w Hrun.
  - cbn in Hrun. injection Hrun as <- <-. by rewrite app_nil_r, Nat.add_0_r.
  - cbn [register_all] in Hrun. rewrite run_bind in Hrun.
    destruct (register valid_pin py_repr as_int as_str r w) as [[self | e] w1] eqn:Hr;
      [| discriminate].
    unfold register in Hr. rewrite run_bind in Hr. unfold lift in Hr.
    destruct (model_validate py_repr as_int as_str r) as [cfg | e]; [| discriminate].
    apply construct_ok_inv in Hr as [-> ->].
    apply IH in Hrun as [-> Hlen].
    assert (length (heap (constructed cfg w)) = S (length (heap w))) as Hc.
    { unfold constructed, half_constructed. world_simpl.
      rewrite length_app. cbn. lia. }
    rewrite Hc in *. split; [| cbn [length]; lia].
    by rewrite <- app_assoc.
Qed.

Lemma register_all_ids_witness :
  ∃ w', register_all bcm_pin plain_repr int_only str_only
          [sw1_record; sw2_record] [] (boot []) = (Ok [0; 1]%nat, w')
    ∧ length (heap w') = 2%nat.
Proof.
  eexists. split; [by vm_compute |].
  eapply (register_all_ids bcm_pin plain_repr int_only str_only
            [sw1_record; sw2_record] [] _ (boot [])).
  by vm_compute.
Defined.

Lemma settled_constructed_other (i : nat) (c cfg : L298NSwitchSettings)
    (P : SwitchPosition) (w : World) :
  settled i c P w →
  (∀ pin, pin ∈ all_pins c → pin ∉ all_pins cfg) →
  settled i c P (constructed cfg w).
Proof.
  intros [(Hh & Hen & Htu & Hst & Hlv & Hd) [Hlt Hls]] Hsep.
  unfold all_pins in Hsep.
  assert (∀ p q, p ∈ all_pins c → q ∈ all_pins cfg → q ≠ p) as Hne.
  { intros p q Hp Hq ->. by apply (Hsep p). }
  unfold all_pins in Hne.
  pose proof (lookup_lt_Some _ _ _ Hh) as Hlen.
  unfold settled, idle, constructed, half_constructed, pins_initialised.
  world_simpl.
  rewrite lookup_app_l by done.
  rewrite !lookup_insert_ne by (apply Hne; set_solver).
  done.
Qed.

Lemma registered_step valid_pin (done : list L298NSwitchSettings)
    (cfg : L298NSwitchSettings) (w : World) :
  registered done w → valid_pins valid_pin cfg → distinct_pins cfg →
  (∀ c, c ∈ done → ∀ pin, pin ∈ all_pins c → pin ∉ all_pins cfg) →
  L298NSwitch_init valid_pin cfg w = (Ok (length done), constructed cfg w)
  ∧ registered (done ++ [cfg]) (constructed cfg w).
Proof.
  intros (Hheap & Hset & Hdet) V D Hsep.
  assert (length (heap w) = length done) as Hlen
    by (by rewrite Hheap, length_fmap).
  assert (GPIO.detects (gpio w) !! pin_button cfg = None) as Hd.
  { destruct (GPIO.detects (gpio w) !! pin_button cfg) as [d |] eqn:E; [| done].
    exfalso. assert (pin_button cfg ∈ pin_button <$> done) as Hin
      by (apply Hdet; by rewrite E).
    apply list_elem_of_fmap in Hin as (c & Hb & Hc).
    apply (Hsep c Hc (pin_button c)); unfold all_pins; [set_solver |].
    rewrite <- Hb. set_solver. }
  split; [rewrite <- Hlen; by apply construct_run |].
  split; [| split].
  - unfold constructed, half_constructed. world_simpl.
    by rewrite Hheap, fmap_app.
  - intros i c Hi.
    destruct (decide (i < length done)%nat) as [Hlt | Hge].
    + rewrite lookup_app_l in Hi by done.
      apply settled_constructed_other; [by apply Hset |].
      apply Hsep. by eapply list_elem_of_lookup_2.
    + assert (i = length done) as ->.
      { apply lookup_lt_Some in Hi. rewrite length_app in Hi. cbn in Hi. lia. }
      rewrite list_lookup_middle in Hi by done. injection Hi as <-.
      rewrite <- Hlen. by apply settled_constructed.
  - intros pin Hp. unfold constructed in Hp. cbn [gpio GPIO.detects] in Hp.
    rewrite fmap_app. apply elem_of_app.
    destruct (decide (pin = pin_button cfg)) as [-> | Hne]; [right; set_solver |].
    left. apply Hdet. by rewrite lookup_insert_ne in Hp.
Qed.

Lemma register_all_registered valid_pin py_repr as_int as_str
    (rs : list (gmap string yaml)) (rest : list L298NSwitchSettings) :
  Forall2 (λ r c, model_validate py_repr as_int as_str r = Ok c) rs rest →
  ∀ (done : list L298NSwitchSettings) (switches : list nat) (w : World),
    Forall (valid_pins valid_pin) rest →
    NoDup ((done ++ rest)%list ≫= all_pins) →
    registered done w →
    ∃ w', register_all valid_pin py_repr as_int as_str rs switches w
          = (Ok (switches ++ seq (length done) (length rest))%list, w')
      ∧ registered (done ++ rest) w'.
Proof.
  induction 1 as [| r c rs rest Hv _ IH]; intros done switches w V N R.
  - exists w. cbn. by rewrite !app_nil_r.
  - apply Forall_cons in V as [Vc V].
    pose proof N as N0. rewrite bind_app, bind_cons in N.
    apply NoDup_app in N as (_ & Hcross & N).
    apply NoDup_app in N as (Dc & _ & _).
    destruct (registered_step valid_pin done c w R Vc Dc) as [Hrun R'].
    { intros c' Hc' pin Hp Hpc. apply (Hcross pin).
      - apply list_elem_of_bind. by exists c'.
      - apply elem_of_app. by left. }
    destruct (IH (done ++ [c])%list (switches ++ [length done])%list (constructed c w))
      as (w' & Hrest & R''); [done | by rewrite <- app_assoc | done |].
    exists w'. rewrite <- app_assoc in R''. split; [| exact R''].
    cbn [register_all]. rewrite run_bind.
    rewrite (register_run _ _ _ _ _ _ _ Hv), Hrun, Hrest.
    rewrite length_app, <- app_assoc. cbn [length app seq].
    by rewrite Nat.add_1_r.
Qed.

(** Records that validate to configs with valid pins, no pin named twice
    within or across them, all register on a fresh chip: the loop
    returns the switches in order, and each is at rest on its
    [initial_state] with its interrupt armed, whatever was registered
    after it. *)
Theorem register_all_disjoint_pins valid_pin py_repr as_int as_str
    (rs : list (gmap string yaml)) (cfgs : list L298NSwitchSettings)
    (script : list (list (Z * Transition))) :
  Forall2 (λ r c, model_validate py_repr as_int as_str r = Ok c) rs cfgs →
  Forall (valid_pins valid_pin) cfgs →
  NoDup (cfgs ≫= all_pins) →
  ∃ w', register_all valid_pin py_repr as_int as_str rs [] (boot script)
        = (Ok (seq 0 (length cfgs)), w')
    ∧ heap w' = initial_object <$> cfgs
    ∧ (∀ i cfg, cfgs !! i = Some cfg → settled i cfg (initial_state cfg) w').
Proof.
  intros Hv V N.
  destruct (register_all_registered valid_pin py_repr as_int as_str rs cfgs Hv
              [] [] (boot script) V N) as (w' & Hrun & Hheap & Hset & _).
  - split; [done |]. split; [intros i cfg Hi; by rewrite lookup_nil in Hi |].
    intros pin [d Hd]. cbn in Hd. by rewrite lookup_empty in Hd.
  - by exists w'.
Qed.

Lemma register_all_disjoint_pins_witness :
  ∃ w', register_all bcm_pin plain_repr int_only str_only
          [sw1_record; sw2_record] [] (boot [])
        = (Ok [0; 1]%nat, w')
    ∧ heap w' = [initial_object sw1; initial_object sw2]
    ∧ (∀ i cfg, [sw1; sw2] !! i = Some cfg → settled i cfg (initial_state cfg) w').
Proof.
  apply (register_all_disjoint_pins bcm_pin plain_repr int_only str_only
           [sw1_record; sw2_record] [sw1; sw2] []).
  - repeat constructor; by vm_compute.
  - repeat constructor; by vm_compute.
  - cbn. repeat (apply NoDup_cons; split; [set_unfold; lia |]). apply NoDup_nil_2.
Defined.

(** A record that does not validate ends the run where it stands, and
    what was done before it stays done: after records that validate to
    configs with valid pins, no pin named twice, the loop raises the
    [ValidationError] of the bad record; the switches of the records
    before it are constructed, at rest on their [initial_state] with
    their interrupts armed, and no record after it has been looked at. *)
Theorem register_all_stops_at_invalid valid_pin py_repr as_int as_str
    (rs : list (gmap string yaml)) (cfgs : list L298NSwitchSettings)
    (bad : gmap string yaml) (errs : list (string * FieldError))
    (rest : list (gmap string yaml)) (script : list (list (Z * Transition))) :
  Forall2 (λ r c, model_validate py_repr as_int as_str r = Ok c) rs cfgs →
  Forall (valid_pins valid_pin) cfgs →
  NoDup (cfgs ≫= all_pins) →
  model_validate py_repr as_int as_str bad = Raise (ValidationError errs) →
  ∃ w', register_all valid_pin py_repr as_int as_str (rs ++ bad :: rest) []
          (boot script)
        = (Raise (ValidationError errs), w')
    ∧ heap w' = initial_object <$> cfgs
    ∧ trace w' = trace (register_all valid_pin py_repr as_int as_str rs []
                          (boot script)).2
    ∧ (∀ i cfg, cfgs !! i = Some cfg → settled i cfg (initial_state cfg) w').
Proof.
  intros Hv V N Hbad.
  destruct (register_all_registered valid_pin py_repr as_int as_str rs cfgs Hv
              [] [] (boot script) V N) as (w' & Hrun & Hheap & Hset & _).
  - split; [done |]. split; [intros i cfg Hi; by rewrite lookup_nil in Hi |].
    intros pin [d Hd]. cbn in Hd. by rewrite lookup_empty in Hd.
  - exists w'. rewrite register_all_app_run, Hrun.
    split; [by apply register_all_invalid |].
    split; [exact Hheap |]. split; [reflexivity | exact Hset].
Qed.

Lemma register_all_stops_at_invalid_witness :
  ∃ w', register_all bcm_pin plain_repr int_only str_only
          ([sw1_record] ++ bad_edge :: [sw2_record]) [] (boot [])
        = (Raise (ValidationError
             [("event_edge",
               ValueErrorIn "Error validating event edge 'rising'. Valid event edges are: ['FALLING', 'RISING', 'BOTH']")]),
           w')
    ∧ heap w' = [initial_object sw1]
    ∧ (∀ i cfg, [sw1] !! i = Some cfg → settled i cfg (initial_state cfg) w').
Proof.
  destruct (register_all_stops_at_invalid bcm_pin plain_repr int_only str_only
              [sw1_record] [sw1] bad_edge
              [("event_edge",
                ValueErrorIn "Error validating event edge 'rising'. Valid event edges are: ['FALLING', 'RISING', 'BOTH']")]
              [sw2_record] []) as (w' & Hrun & Hheap & _ & Hset).
  - repeat constructor; by vm_compute.
  - repeat constructor; by vm_compute.
  - cbn. repeat (apply NoDup_cons; split; [set_unfold; lia |]). apply NoDup_nil_2.
  - by vm_compute.
  - by exists w'.
Defined.

(** ** The validators *)

(** The two [before] validators accept exactly the member names, case
    sensitive: a value is turned into the member [p] if and only if it is
    the string [p.name]; in particular the integer values 0 and 1 of the
    positions are not accepted. *)
Theorem validators_accept_exactly_names (py_repr : yaml → string) (v : yaml) :
  (∀ p, validate_switch_position py_repr v = inr p ↔ v = YStr (SwitchPosition_name p))
  ∧ (∀ e, validate_event_edge py_repr v = inr e ↔ v = YStr (EventEdge_name e)).
Proof.
  split.
  - intros p. unfold validate_switch_position. split.
    + destruct v as [s | z]; [| discriminate].
      unfold SwitchPosition_getitem, enum_getitem, SwitchPosition_members.
      cbn [List.find SwitchPosition_name].
      destruct (String.eqb_spec "TURN" s) as [<- | _];
        [intros [= <-]; reflexivity |].
      destruct (String.eqb_spec "STRAIGHT" s) as [<- | _];
        [intros [= <-]; reflexivity | discriminate].
    + intros ->. by destruct p.
  - intros e. unfold validate_event_edge. split.
    + destruct v as [s | z]; [| discriminate].
      unfold EventEdge_getitem, enum_getitem, EventEdge_members.
      cbn [List.find EventEdge_name].
      destruct (String.eqb_spec "FALLING" s) as [<- | _];
        [intros [= <-]; reflexivity |].
      destruct (String.eqb_spec "RISING" s) as [<- | _];
        [intros [= <-]; reflexivity |].
      destruct (String.eqb_spec "BOTH" s) as [<- | _];
        [intros [= <-]; reflexivity | discriminate].
    + intros ->. by destruct e.
Qed.

(** ** After a handler that raised *)

(** A handler that raises, for whatever reason, leaves its switch
    unresponsive: the position has been flipped, and from then on every
    transition on the button is dropped and changes nothing. *)
Theorem fault_disables_switch (clock : Clock) (self : nat) (cfg : L298NSwitchSettings)
    (p : Z) (w : World) (e : exn) (w' : World) (ts : list Transition) :
  heap w !! self = Some {| config := cfg; state := Some p |} →
  GPIO.detects (gpio w) !! pin_button cfg = Some (armed self cfg) →
  deliver clock (pin_button cfg, Rise) w = (Some (Raise e), w') →
  heap w' !! self = Some {| config := cfg; state := Some (Z.lxor p 1) |}
  ∧ deliver_all clock (on_button cfg ts) w' = ((λ _, None) <$> ts, w').
Proof.
  intros Hh Hd. unfold deliver. cbn [fst snd]. rewrite Hd.
  cbn [armed d_edge d_callback edge_matches].
  destruct (toggle clock self (pin_button cfg) w) as [r w1] eqn:Hrun.
  intros [= -> <-].
  destruct (toggle_raise_disarmed clock self cfg p _ w e w1 Hh Hrun) as [Hnone Hst].
  split; [exact Hst | by apply deliver_all_disarmed].
Qed.

Lemma fault_disables_switch_witness :
  heap (deliver sample_clock (23, Rise) two_switch_world).2 !! 0%nat
    = Some {| config := sw1; state := Some 1 |}
  ∧ deliver_all sample_clock (on_button sw1 [Rise; Fall; Rise]) (deliver sample_clock (23, Rise) two_switch_world).2
    = ([None; None; None], (deliver sample_clock (23, Rise) two_switch_world).2).
Proof.
  apply (fault_disables_switch sample_clock 0 sw1 0 two_switch_world PinIOError
           (deliver sample_clock (23, Rise) two_switch_world).2 [Rise; Fall; Rise]).
  - by vm_compute.
  - by vm_compute.
  - by vm_compute.
Defined.
